(** * Push-notification adapter (package kpf): shallow embedding

    The Go package [kpf] is a thin adapter in front of two vendor SDKs
    (APNs through [sideshow/apns2], FCM through [firebase.google.com/go/v4]).
    The embedding below follows [push_client.go] and the RPC handler file
    function by function.

    - Go [string] is [string]; a Go [map[string]string] is [gmap string string].
    - A Go [error] result is [option error] ([None] is [nil]); a Go pair
      [(T, error)] is [result T].
    - The [*PushClient] receiver is mutated in place by the lazy getters; it
      is the [pc] component of the threaded [State].
    - Everything the package does not implement (key-file loading, the two
      SDK connections, [database/sql], [encoding/json], the host logger) is a
      field of [Collaborators].  Each collaborator answers as a function of
      the history of calls made so far, so its answers may change over time.
    - The model covers clients whose two credential pointers are non-nil
      (what [NewPushClientFromEnv] always builds) and calls made one at a
      time on one [PushClient]. *)

From Stdlib Require Import ZArith Lia.
From stdpp Require Import base option list strings gmap.

(** ** Go errors *)

(** [hiro_ErrBadInput] is [hiro.ErrBadInput] and [sql_ErrNoRows] is
    [sql.ErrNoRows]; [errors_New] is [errors.New].  [foreign_error] stands for
    an error value made by a collaborator, and [foreign_wrap] for one made by
    a collaborator that has an [Unwrap] method.  [PushNotificationDeliveryFailed]
    is the package's own wrapper; it has an [Error] method and no [Unwrap]. *)
Inductive error : Type :=
| hiro_ErrBadInput
| sql_ErrNoRows
| errors_New (text : string)
| foreign_error (text : string)
| foreign_wrap (text : string) (cause : error)
| PushNotificationDeliveryFailed (Err : error).

(** [errors.Is(err, sql.ErrNoRows)]: follows [Unwrap] chains only. *)
Fixpoint errors_Is_ErrNoRows (err : error) : bool :=
  match err with
  | sql_ErrNoRows => true
  | foreign_wrap _ cause => errors_Is_ErrNoRows cause
  | _ => false
  end.

(** [(e *PushNotificationDeliveryFailed) Error()] and the messages of the
    other error values. *)
Fixpoint Error (e : error) : string :=
  match e with
  | hiro_ErrBadInput => "bad input"
  | sql_ErrNoRows => "sql: no rows in result set"
  | errors_New text => text
  | foreign_error text => text
  | foreign_wrap text _ => text
  | PushNotificationDeliveryFailed Err => Error Err
  end.

(** The dynamic type test a caller makes with
    [errors.As(err, &deliveryFailed)] / a type switch. *)
Definition is_delivery_failed (e : error) : bool :=
  match e with
  | PushNotificationDeliveryFailed _ => true
  | _ => false
  end.

Inductive result (T : Type) : Type :=
| Ok (v : T)
| Fail (err : error).
Arguments Ok {T} v.
Arguments Fail {T} err.

(** ** Host and vendor values *)

Record Context := { ctx_id : nat }.
Record Logger := { logger_id : nat }.
Record DB := { db_id : nat }.
Record NakamaModule := { nk_id : nat }.

Module token.
Record AuthKey := { key_material : string }.
Record Token := { AuthKey_ : AuthKey; KeyID : string; TeamID : string }.
End token.

Module payload.
(** The builder of [apns2/payload]: the alert dictionary under [aps] and
    the top-level custom entries. *)
Record Payload := {
  alert_title : string;
  alert_body : string;
  custom : gmap string string
}.
Definition NewPayload : Payload :=
  {| alert_title := ""; alert_body := ""; custom := ∅ |}.
Definition AlertTitle (title : string) (p : Payload) : Payload :=
  {| alert_title := title; alert_body := alert_body p; custom := custom p |}.
Definition AlertBody (body : string) (p : Payload) : Payload :=
  {| alert_title := alert_title p; alert_body := body; custom := custom p |}.
Definition Custom (key val : string) (p : Payload) : Payload :=
  {| alert_title := alert_title p; alert_body := alert_body p;
     custom := <[key := val]> (custom p) |}.
End payload.

Module apns2.
Inductive host := HostDevelopment | HostProduction.
(** [addr] is the identity of the heap object behind the [*apns2.Client]. *)
Record Client := { addr : nat; Token : token.Token; Host : host }.
Definition DefaultHost : host := HostDevelopment.
Definition Production (c : Client) : Client :=
  {| addr := addr c; Token := Token c; Host := HostProduction |}.
Definition Development (c : Client) : Client :=
  {| addr := addr c; Token := Token c; Host := HostDevelopment |}.
Record Notification := {
  DeviceToken : string;
  Topic : string;
  Payload : payload.Payload
}.
Record Response := { StatusCode : Z; Reason : string; ApnsID : string }.
Definition StatusSent : Z := 200.
Definition Sent (r : Response) : bool := (StatusCode r =? StatusSent)%Z.
End apns2.

Module firebase.
Record Config := { ProjectID : string }.
(** [opts] is the credentials file given through
    [option.WithCredentialsFile]. *)
Record App := { addr : nat; config : Config; opts : string }.
End firebase.

Module messaging.
Record Notification := { Title : string; Body : string; ImageURL : string }.
Record Message := {
  Notification_ : Notification;
  Token : string;
  Data : gmap string string
}.
Record Client := { addr : nat; app : firebase.App }.
End messaging.

Module sql.
Record NullString := { String_ : string; Valid : bool }.
(** One row of [SELECT id, push_token_android, push_token_ios]. *)
Record Row := {
  id : string;
  push_token_android : NullString;
  push_token_ios : NullString
}.
End sql.

(** ** The package's own data *)

Record APNSCredentials := {
  Environment : string;
  TeamID : string;
  Topic : string;
  P8AuthKeyID : string;
  P8AuthKeyFilePath : string
}.

Record FCMCredentials := {
  ProjectID : string;
  CredentialsFilePath : string
}.

Record PushClient := {
  apnsClient : option apns2.Client;
  apnsCreds : APNSCredentials;
  ctx : Context;
  fcmClient : option messaging.Client;
  fcmCreds : FCMCredentials
}.

Record NotificationRequest := {
  UserID : string;
  DeviceToken : string;
  Title : string;
  Body : string;
  ImageURL : string;
  ExternalID : string;
  IsIOS : bool
}.

(** [m[k]] on a Go [map[string]string]: the zero value when [k] is absent. *)
Definition map_index (m : gmap string string) (k : string) : string :=
  default "" (m !! k).

Definition NewAPNSCredentialsFromEnv (env : gmap string string) : APNSCredentials :=
  {| Environment := map_index env "APNS_ENVIRONMENT";
     TeamID := map_index env "APNS_TEAM_ID";
     Topic := map_index env "APNS_TOPIC";
     P8AuthKeyID := map_index env "APNS_P8_AUTH_KEY_ID";
     P8AuthKeyFilePath := map_index env "APNS_P8_AUTH_KEY_FILE_PATH" |}.

Definition NewFCMCredentialsFromEnv (env : gmap string string) : FCMCredentials :=
  {| ProjectID := map_index env "FCM_PROJECT_ID";
     CredentialsFilePath := map_index env "FCM_CREDENTIALS_FILE_PATH" |}.

Definition NewPushClient (ctx : Context) (apnsCreds : APNSCredentials)
    (fcmCreds : FCMCredentials) : PushClient :=
  {| apnsCreds := apnsCreds;
     ctx := ctx;
     fcmCreds := fcmCreds;
     apnsClient := None;
     fcmClient := None |}.

Definition NewPushClientFromEnv (ctx : Context) (props : gmap string string) : PushClient :=
  let apnsCreds := NewAPNSCredentialsFromEnv props in
  let fcmCreds := NewFCMCredentialsFromEnv props in
  NewPushClient ctx apnsCreds fcmCreds.


(** ** Calls, events and collaborators *)

(** An entry into one of the two provider send methods, with its arguments. *)
Inductive Call : Type :=
| CallSendFirebasePush (ctx : Context)
    (deviceToken title body imageURL externalID : string)
| CallSendApplePush (ctx : Context)
    (deviceToken title body imageURL externalID : string).

Definition Rows : Type := list (result sql.Row).

(** What the program does to the outside, in order.  [EvCall] is a ghost
    event marking the entry into a send method; every other event is one call
    into a collaborator together with the answer it gave. *)
Inductive Event : Type :=
| EvCall (c : Call)
| EvAuthKeyFromFile (path : string) (r : result token.AuthKey)
| EvNewTokenClient (cl : apns2.Client)
| EvPushWithContext (cl : apns2.Client) (ctx : Context)
    (n : apns2.Notification) (r : result apns2.Response)
| EvNewApp (ctx : Context) (cfg : firebase.Config) (opts : string)
    (r : result firebase.App)
| EvMessaging (app : firebase.App) (ctx : Context) (r : result messaging.Client)
| EvSend (cl : messaging.Client) (ctx : Context) (m : messaging.Message)
    (r : result string)
| EvQueryContext (db : DB) (ctx : Context) (query arg : string) (r : result Rows)
| EvRowsClose
| EvDebug (logger : Logger) (format : string) (arg : error).

Definition History : Type := list Event.

(** The answers of the collaborators.  [sql_QueryContext] answers with the
    sequence that [rows.Next]/[rows.Scan] then yields: one entry per row, the
    scanned row or the error of [Scan].  [firebase_NewApp] and [app_Messaging]
    answer with the error, if any; the object itself is allocated by the
    model.  [json_Unmarshal] is [json.Unmarshal] into a zero
    [NotificationRequest]. *)
Record Collaborators := {
  token_AuthKeyFromFile : History → string → result token.AuthKey;
  apns2_PushWithContext :
    History → apns2.Client → Context → apns2.Notification → result apns2.Response;
  firebase_NewApp : History → Context → firebase.Config → string → option error;
  app_Messaging : History → firebase.App → Context → option error;
  messaging_Send :
    History → messaging.Client → Context → messaging.Message → result string;
  sql_QueryContext : History → DB → Context → string → string → result Rows;
  json_Unmarshal : string → result NotificationRequest
}.

(** ** State and the state monad *)

Record State := {
  pc : PushClient;
  history : History;
  next_addr : nat
}.

Definition M (A : Type) : Type := State → A * State.

#[global] Instance M_ret : MRet M := λ A x s, (x, s).
#[global] Instance M_bind : MBind M :=
  λ A B f m s, let '(a, s') := m s in f a s'.

Definition emit (e : Event) : M unit :=
  λ s, (tt, {| pc := pc s; history := history s ++ [e]; next_addr := next_addr s |}).

Definition past : M History := λ s, (history s, s).

Definition receiver : M PushClient := λ s, (pc s, s).

Definition alloc : M nat :=
  λ s, (next_addr s,
        {| pc := pc s; history := history s; next_addr := S (next_addr s) |}).

Definition store_apnsClient (cl : apns2.Client) : M unit :=
  λ s, (tt,
        {| pc := {| apnsClient := Some cl;
                    apnsCreds := apnsCreds (pc s);
                    ctx := ctx (pc s);
                    fcmClient := fcmClient (pc s);
                    fcmCreds := fcmCreds (pc s) |};
           history := history s; next_addr := next_addr s |}).

Definition store_fcmClient (cl : messaging.Client) : M unit :=
  λ s, (tt,
        {| pc := {| apnsClient := apnsClient (pc s);
                    apnsCreds := apnsCreds (pc s);
                    ctx := ctx (pc s);
                    fcmClient := Some cl;
                    fcmCreds := fcmCreds (pc s) |};
           history := history s; next_addr := next_addr s |}).

(** The state of a process that has just built its client. *)
Definition boot (c : PushClient) : State :=
  {| pc := c; history := []; next_addr := 0 |}.

(** ** The program *)

Definition dq : string := String (Ascii.ascii_of_nat 34) EmptyString.

(** The SQL text of [SendUserPush], a raw string literal in the source. *)
Definition query : string :=
"
SELECT
    id, push_token_android, push_token_ios
FROM
    user_device
WHERE
    user_id = $1
".

(** [`{"message": "Push notification sent successfully"}`] *)
Definition responseJSON : string :=
  "{" +:+ dq +:+ "message" +:+ dq +:+ ": " +:+ dq +:+
  "Push notification sent successfully" +:+ dq +:+ "}".

Section Program.

Variable W : Collaborators.

(** Calls into collaborators: ask with the history so far, record the call
    and its answer. *)

Definition call_AuthKeyFromFile (path : string) : M (result token.AuthKey) :=
  h ← past;
  let r := token_AuthKeyFromFile W h path in
  emit (EvAuthKeyFromFile path r);;
  mret r.

(** [apns2.NewTokenClient(tok)]: a fresh client on [DefaultHost]; cannot fail. *)
Definition call_NewTokenClient (tok : token.Token) : M apns2.Client :=
  a ← alloc;
  let cl := {| apns2.addr := a; apns2.Token := tok;
               apns2.Host := apns2.DefaultHost |} in
  emit (EvNewTokenClient cl);;
  mret cl.

Definition call_PushWithContext (cl : apns2.Client) (ctx : Context)
    (n : apns2.Notification) : M (result apns2.Response) :=
  h ← past;
  let r := apns2_PushWithContext W h cl ctx n in
  emit (EvPushWithContext cl ctx n r);;
  mret r.

Definition call_NewApp (ctx : Context) (cfg : firebase.Config) (opts : string)
    : M (result firebase.App) :=
  h ← past;
  match firebase_NewApp W h ctx cfg opts with
  | Some err =>
      emit (EvNewApp ctx cfg opts (Fail err));;
      mret (Fail err)
  | None =>
      a ← alloc;
      let app := {| firebase.addr := a; firebase.config := cfg;
                    firebase.opts := opts |} in
      emit (EvNewApp ctx cfg opts (Ok app));;
      mret (Ok app)
  end.

Definition call_Messaging (app : firebase.App) (ctx : Context)
    : M (result messaging.Client) :=
  h ← past;
  match app_Messaging W h app ctx with
  | Some err =>
      emit (EvMessaging app ctx (Fail err));;
      mret (Fail err)
  | None =>
      a ← alloc;
      let cl := {| messaging.addr := a; messaging.app := app |} in
      emit (EvMessaging app ctx (Ok cl));;
      mret (Ok cl)
  end.

Definition call_Send (cl : messaging.Client) (ctx : Context)
    (m : messaging.Message) : M (result string) :=
  h ← past;
  let r := messaging_Send W h cl ctx m in
  emit (EvSend cl ctx m r);;
  mret r.

Definition call_QueryContext (db : DB) (ctx : Context) (q arg : string)
    : M (result Rows) :=
  h ← past;
  let r := sql_QueryContext W h db ctx q arg in
  emit (EvQueryContext db ctx q arg r);;
  mret r.

Definition getAPNSClient : M (result apns2.Client) :=
  c ← receiver;
  match apnsClient c with
  | None =>
      r ← call_AuthKeyFromFile (P8AuthKeyFilePath (apnsCreds c));
      match r with
      | Fail err => mret (Fail err)
      | Ok authKey =>
          let tok := {| token.AuthKey_ := authKey;
                        token.KeyID := P8AuthKeyID (apnsCreds c);
                        token.TeamID := TeamID (apnsCreds c) |} in
          fresh ← call_NewTokenClient tok;
          let apnsClient := apns2.Production fresh in
          let apnsClient :=
            if String.eqb (Environment (apnsCreds c)) "development"
            then apns2.Development apnsClient
            else apnsClient in
          store_apnsClient apnsClient;;
          mret (Ok apnsClient)
      end
  | Some cached => mret (Ok cached)
  end.

Definition getFCMClient : M (result messaging.Client) :=
  c ← receiver;
  match fcmClient c with
  | None =>
      let opts := CredentialsFilePath (fcmCreds c) in
      let fcmConfig := {| firebase.ProjectID := ProjectID (fcmCreds c) |} in
      r ← call_NewApp (ctx c) fcmConfig opts;
      match r with
      | Fail err => mret (Fail err)
      | Ok app =>
          r ← call_Messaging app (ctx c);
          match r with
          | Fail err => mret (Fail err)
          | Ok fcmClient =>
              store_fcmClient fcmClient;;
              mret (Ok fcmClient)
          end
      end
  | Some cached => mret (Ok cached)
  end.

(** The notification [SendApplePush] builds before it asks for the client. *)
Definition apple_notification (creds : APNSCredentials)
    (deviceToken title body imageURL externalID : string) : apns2.Notification :=
  let contents :=
    payload.AlertBody body (payload.AlertTitle title payload.NewPayload) in
  let contents :=
    payload.Custom "external_id" externalID
      (payload.Custom "image_url" imageURL contents) in
  {| apns2.DeviceToken := deviceToken;
     apns2.Topic := Topic creds;
     apns2.Payload := contents |}.

Definition SendApplePush (ctx : Context)
    (deviceToken title body imageURL externalID : string) : M (option error) :=
  emit (EvCall (CallSendApplePush ctx deviceToken title body imageURL externalID));;
  c ← receiver;
  let notification :=
    apple_notification (apnsCreds c) deviceToken title body imageURL externalID in
  r ← getAPNSClient;
  match r with
  | Fail err => mret (Some err)
  | Ok apnsClient =>
      r ← call_PushWithContext apnsClient ctx notification;
      match r with
      | Fail err => mret (Some (PushNotificationDeliveryFailed err))
      | Ok response =>
          if negb (apns2.Sent response)
          then mret (Some (PushNotificationDeliveryFailed
                             (errors_New (apns2.Reason response))))
          else mret None
      end
  end.

(** The message [SendFirebasePush] builds before it asks for the client. *)
Definition firebase_message
    (deviceToken title body imageURL externalID : string) : messaging.Message :=
  {| messaging.Notification_ :=
       {| messaging.Title := title;
          messaging.Body := body;
          messaging.ImageURL := imageURL |};
     messaging.Token := deviceToken;
     messaging.Data := {[ "external_id" := externalID ]} |}.

Definition SendFirebasePush (ctx : Context)
    (deviceToken title body imageURL externalID : string) : M (option error) :=
  emit (EvCall (CallSendFirebasePush ctx deviceToken title body imageURL externalID));;
  let contents := firebase_message deviceToken title body imageURL externalID in
  r ← getFCMClient;
  match r with
  | Fail err => mret (Some err)
  | Ok fcmClient =>
      r ← call_Send fcmClient ctx contents;
      match r with
      | Fail err => mret (Some (PushNotificationDeliveryFailed err))
      | Ok _ => mret None
      end
  end.

(** [pushToken.Valid && pushToken.String != ""] *)
Definition token_present (t : sql.NullString) : bool :=
  sql.Valid t && negb (String.eqb (sql.String_ t) "").

(** The [for rows.Next()] loop of [SendUserPush]. *)
Fixpoint rows_loop (ctx : Context) (title body imageURL externalID : string)
    (rows : Rows) : M (option error) :=
  match rows with
  | [] => mret None
  | Fail err :: _ => mret (Some err)
  | Ok row :: rest =>
      let pushTokenAndroid := sql.push_token_android row in
      let pushTokenIos := sql.push_token_ios row in
      r ← (if token_present pushTokenAndroid
           then SendFirebasePush ctx (sql.String_ pushTokenAndroid)
                  title body imageURL externalID
           else mret None);
      match r with
      | Some err => mret (Some err)
      | None =>
          r ← (if token_present pushTokenIos
               then SendApplePush ctx (sql.String_ pushTokenIos)
                      title body imageURL externalID
               else mret None);
          match r with
          | Some err => mret (Some err)
          | None => rows_loop ctx title body imageURL externalID rest
          end
      end
  end.

Definition SendUserPush (ctx : Context) (logger : Logger) (db : DB)
    (userID title body imageURL externalID : string) : M (option error) :=
  r ← call_QueryContext db ctx query userID;
  match r with
  | Fail err =>
      if errors_Is_ErrNoRows err
      then mret (Some (errors_New "user not found"))
      else mret (Some err)
  | Ok rows =>
      r ← rows_loop ctx title body imageURL externalID rows;
      emit EvRowsClose;;
      mret r
  end.

Definition RpcSendNotification (ctx : Context) (logger : Logger) (db : DB)
    (nk : NakamaModule) (payload : string) : M (string * option error) :=
  match json_Unmarshal W payload with
  | Fail err =>
      emit (EvDebug logger "json.Unmarshal error: %v" err);;
      mret ("", Some hiro_ErrBadInput)
  | Ok req =>
      if negb (IsIOS req)
      then
        r ← SendFirebasePush ctx (DeviceToken req) (Title req) (Body req)
              (ImageURL req) (ExternalID req);
        match r with
        | Some err => mret ("", Some err)
        | None => mret (responseJSON, None)
        end
      else
        r ← SendApplePush ctx (DeviceToken req) (Title req) (Body req)
              (ImageURL req) (ExternalID req);
        match r with
        | Some err => mret ("", Some err)
        | None => mret (responseJSON, None)
        end
  end.

End Program.

(** ** Reading a history *)

Definition calls_of (h : History) : list Call :=
  omap (λ e, match e with EvCall c => Some c | _ => None end) h.

(** Clients made by [apns2.NewTokenClient], oldest first. *)
Definition apns_built (h : History) : list apns2.Client :=
  omap (λ e, match e with EvNewTokenClient cl => Some cl | _ => None end) h.

(** Clients on which [PushWithContext] was called. *)
Definition apns_used (h : History) : list apns2.Client :=
  omap (λ e, match e with EvPushWithContext cl _ _ _ => Some cl | _ => None end) h.

(** Notifications handed to [PushWithContext]. *)
Definition apns_submitted (h : History) : list apns2.Notification :=
  omap (λ e, match e with EvPushWithContext _ _ n _ => Some n | _ => None end) h.

(** Paths given to [token.AuthKeyFromFile]. *)
Definition apns_key_loads (h : History) : list string :=
  omap (λ e, match e with EvAuthKeyFromFile p _ => Some p | _ => None end) h.

(** Clients made by a successful [app.Messaging]. *)
Definition fcm_built (h : History) : list messaging.Client :=
  omap (λ e, match e with EvMessaging _ _ (Ok cl) => Some cl | _ => None end) h.

(** Clients on which [Send] was called. *)
Definition fcm_used (h : History) : list messaging.Client :=
  omap (λ e, match e with EvSend cl _ _ _ => Some cl | _ => None end) h.

(** Messages handed to [Send]. *)
Definition fcm_submitted (h : History) : list messaging.Message :=
  omap (λ e, match e with EvSend _ _ m _ => Some m | _ => None end) h.

(** Configurations given to [firebase.NewApp]. *)
Definition fcm_app_attempts (h : History) : list firebase.Config :=
  omap (λ e, match e with EvNewApp _ cfg _ _ => Some cfg | _ => None end) h.

(** The environment choice of [getAPNSClient]. *)
Definition chosen_host (creds : APNSCredentials) : apns2.host :=
  if String.eqb (Environment creds) "development"
  then apns2.HostDevelopment
  else apns2.HostProduction.

(** What [SendApplePush] returns for an answer of [PushWithContext]. *)
Definition apple_outcome (r : result apns2.Response) : option error :=
  match r with
  | Fail err => Some (PushNotificationDeliveryFailed err)
  | Ok response =>
      if negb (apns2.Sent response)
      then Some (PushNotificationDeliveryFailed (errors_New (apns2.Reason response)))
      else None
  end.

(** What [SendFirebasePush] returns for an answer of [Send]. *)
Definition firebase_outcome (r : result string) : option error :=
  match r with
  | Fail err => Some (PushNotificationDeliveryFailed err)
  | Ok _ => None
  end.

(** ** Operations on one client, and runs of them *)

Inductive Op : Type :=
| OpSendApplePush (ctx : Context)
    (deviceToken title body imageURL externalID : string)
| OpSendFirebasePush (ctx : Context)
    (deviceToken title body imageURL externalID : string)
| OpSendUserPush (ctx : Context) (logger : Logger) (db : DB)
    (userID title body imageURL externalID : string)
| OpRpcSendNotification (ctx : Context) (logger : Logger) (db : DB)
    (nk : NakamaModule) (payload : string).

Definition run_op (W : Collaborators) (o : Op) (s : State) : State :=
  match o with
  | OpSendApplePush ctx deviceToken title body imageURL externalID =>
      snd (SendApplePush W ctx deviceToken title body imageURL externalID s)
  | OpSendFirebasePush ctx deviceToken title body imageURL externalID =>
      snd (SendFirebasePush W ctx deviceToken title body imageURL externalID s)
  | OpSendUserPush ctx logger db userID title body imageURL externalID =>
      snd (SendUserPush W ctx logger db userID title body imageURL externalID s)
  | OpRpcSendNotification ctx logger db nk payload =>
      snd (RpcSendNotification W ctx logger db nk payload s)
  end.

Definition run (W : Collaborators) (ops : list Op) (s : State) : State :=
  foldl (λ s o, run_op W o s) s ops.

(** Specification side of the fan-out.  The provider sends planned for the
    scanned rows: per row, Firebase for a present Android token, then Apple
    for a present iOS token. *)
Definition row_calls (ctx : Context) (title body imageURL externalID : string)
    (row : sql.Row) : list Call :=
  (if token_present (sql.push_token_android row)
   then [CallSendFirebasePush ctx (sql.String_ (sql.push_token_android row))
           title body imageURL externalID]
   else []) ++
  (if token_present (sql.push_token_ios row)
   then [CallSendApplePush ctx (sql.String_ (sql.push_token_ios row))
           title body imageURL externalID]
   else []).

Definition fanout_plan (ctx : Context) (title body imageURL externalID : string)
    (rows : list sql.Row) : list Call :=
  concat (map (row_calls ctx title body imageURL externalID) rows).

(** Making one planned call. *)
Definition do_call (W : Collaborators) (c : Call) : M (option error) :=
  match c with
  | CallSendFirebasePush ctx deviceToken title body imageURL externalID =>
      SendFirebasePush W ctx deviceToken title body imageURL externalID
  | CallSendApplePush ctx deviceToken title body imageURL externalID =>
      SendApplePush W ctx deviceToken title body imageURL externalID
  end.

(** Specification side of the fan-out: planned calls are made in order and
    the first error stops it and is the result.
    A fan-out over planned calls that stops at the first error:
    [fanout W s plan r s' made] says that from [s] the calls [made], a prefix
    of [plan], were made in order, ending in [s'] with result [r]. *)
Inductive fanout (W : Collaborators) : State → list Call → option error → State → list Call → Prop :=
| fanout_done s : fanout W s [] None s []
| fanout_next s c plan s1 r s2 made :
    do_call W c s = (None, s1) →
    fanout W s1 plan r s2 made →
    fanout W s (c :: plan) r s2 (c :: made)
| fanout_abort s c plan err s1 :
    do_call W c s = (Some err, s1) →
    fanout W s (c :: plan) (Some err) s1 [c].

(** Each recognised configuration key with the credential field that
    [NewAPNSCredentialsFromEnv] / [NewFCMCredentialsFromEnv] load from it. *)
Definition loaded_fields (env : gmap string string) : list (string * string) :=
  let a := NewAPNSCredentialsFromEnv env in
  let f := NewFCMCredentialsFromEnv env in
  [ ("APNS_ENVIRONMENT", Environment a);
    ("APNS_TEAM_ID", TeamID a);
    ("APNS_TOPIC", Topic a);
    ("APNS_P8_AUTH_KEY_ID", P8AuthKeyID a);
    ("APNS_P8_AUTH_KEY_FILE_PATH", P8AuthKeyFilePath a);
    ("FCM_PROJECT_ID", ProjectID f);
    ("FCM_CREDENTIALS_FILE_PATH", CredentialsFilePath f) ].

(** ** Invariants of a client *)

(** Appending one event that is not made by a send method. *)
Definition log (e : Event) (s : State) : State :=
  {| pc := pc s; history := history s ++ [e]; next_addr := next_addr s |}.

(** How one client moves from [s] to a later [s']: the history only grows,
    credentials and context stay, and a cached handle is never replaced. *)
Record grows (s s' : State) : Prop := {
  grows_history : ∃ new, history s' = history s ++ new;
  grows_apnsCreds : apnsCreds (pc s') = apnsCreds (pc s);
  grows_fcmCreds : fcmCreds (pc s') = fcmCreds (pc s);
  grows_ctx : ctx (pc s') = ctx (pc s);
  grows_apnsClient : ∀ cl, apnsClient (pc s) = Some cl → apnsClient (pc s') = Some cl;
  grows_fcmClient : ∀ cl, fcmClient (pc s) = Some cl → fcmClient (pc s') = Some cl
}.

(** Each client field is [nil] with nothing built so far, or the one client
    that was built; every vendor send so far went through the cached handle;
    the cached APNs handle points at the host chosen from the credentials. *)
Record client_inv (s : State) : Prop := {
  inv_apns_built :
    map apns2.addr (apns_built (history s)) =
    match apnsClient (pc s) with None => [] | Some cl => [apns2.addr cl] end;
  inv_apns_used : ∀ cl, cl ∈ apns_used (history s) → apnsClient (pc s) = Some cl;
  inv_apns_host :
    ∀ cl, apnsClient (pc s) = Some cl → apns2.Host cl = chosen_host (apnsCreds (pc s));
  inv_fcm_built :
    fcm_built (history s) =
    match fcmClient (pc s) with None => [] | Some cl => [cl] end;
  inv_fcm_used : ∀ cl, cl ∈ fcm_used (history s) → fcmClient (pc s) = Some cl
}.

(** ** Concrete collaborators and inputs *)

(** The request of the example in the specification, and its payload text. *)
Definition example_request : NotificationRequest :=
  {| UserID := "u1"; DeviceToken := "tok-ios"; Title := "Hi"; Body := "there";
     ImageURL := ""; ExternalID := "x1"; IsIOS := true |}.

Definition json_string_field (key val : string) : string :=
  dq +:+ key +:+ dq +:+ ":" +:+ dq +:+ val +:+ dq.

Definition example_payload : string :=
  "{" +:+ json_string_field "user_id" "u1" +:+ "," +:+
  json_string_field "device_token" "tok-ios" +:+ "," +:+
  json_string_field "title" "Hi" +:+ "," +:+
  json_string_field "body" "there" +:+ "," +:+
  json_string_field "image_url" "" +:+ "," +:+
  json_string_field "external_id" "x1" +:+ "," +:+
  dq +:+ "is_ios" +:+ dq +:+ ":true}".

Definition android_request : NotificationRequest :=
  {| UserID := "u2"; DeviceToken := "tok-android"; Title := "Hi"; Body := "there";
     ImageURL := "https://img"; ExternalID := "x2"; IsIOS := false |}.

(** A decoder that knows two payloads and rejects every other text. *)
Definition sample_Unmarshal (payload : string) : result NotificationRequest :=
  if String.eqb payload example_payload then Ok example_request
  else if String.eqb payload "android" then Ok android_request
  else Fail (foreign_error "invalid character").

Definition android_only_row : sql.Row :=
  {| sql.id := "d1";
     sql.push_token_android := {| sql.String_ := "tok-android"; sql.Valid := true |};
     sql.push_token_ios := {| sql.String_ := ""; sql.Valid := false |} |}.

Definition both_tokens_row : sql.Row :=
  {| sql.id := "d2";
     sql.push_token_android := {| sql.String_ := "tok-a2"; sql.Valid := true |};
     sql.push_token_ios := {| sql.String_ := "tok-i2"; sql.Valid := true |} |}.

(** A device table with an Android-only user, a user with both tokens on one
    row, and nobody else: the row set for any other user id is empty. *)
Definition sample_QueryContext (userID : string) : result Rows :=
  if String.eqb userID "u-android" then Ok [Ok android_only_row]
  else if String.eqb userID "u-both" then Ok [Ok both_tokens_row]
  else Ok [].

Definition sent_response : apns2.Response :=
  {| apns2.StatusCode := 200; apns2.Reason := ""; apns2.ApnsID := "apns-1" |}.

Definition rejected_response : apns2.Response :=
  {| apns2.StatusCode := 400; apns2.Reason := "BadDeviceToken"; apns2.ApnsID := "apns-2" |}.

(** Every collaborator answers with success. *)
Definition W_ok : Collaborators :=
  {| token_AuthKeyFromFile := λ _ _, Ok {| token.key_material := "p8" |};
     apns2_PushWithContext := λ _ _ _ _, Ok sent_response;
     firebase_NewApp := λ _ _ _ _, None;
     app_Messaging := λ _ _ _, None;
     messaging_Send := λ _ _ _ _, Ok "projects/p/messages/1";
     sql_QueryContext := λ _ _ _ _ userID, sample_QueryContext userID;
     json_Unmarshal := sample_Unmarshal |}.

(** APNs is unreachable: [PushWithContext] fails with a transport error;
    FCM rejects every send. *)
Definition W_transport : Collaborators :=
  {| token_AuthKeyFromFile := λ _ _, Ok {| token.key_material := "p8" |};
     apns2_PushWithContext := λ _ _ _ _, Fail (foreign_error "connection reset");
     firebase_NewApp := λ _ _ _ _, None;
     app_Messaging := λ _ _ _, None;
     messaging_Send := λ _ _ _ _, Fail (foreign_error "registration-token-not-registered");
     sql_QueryContext := λ _ _ _ _ userID, sample_QueryContext userID;
     json_Unmarshal := sample_Unmarshal |}.

(** APNs answers, but reports that the notification was not sent. *)
Definition W_rejected : Collaborators :=
  {| token_AuthKeyFromFile := λ _ _, Ok {| token.key_material := "p8" |};
     apns2_PushWithContext := λ _ _ _ _, Ok rejected_response;
     firebase_NewApp := λ _ _ _ _, None;
     app_Messaging := λ _ _ _, None;
     messaging_Send := λ _ _ _ _, Ok "projects/p/messages/1";
     sql_QueryContext := λ _ _ _ _ userID, sample_QueryContext userID;
     json_Unmarshal := sample_Unmarshal |}.

(** No key file and no service-account file: both constructions fail; the
    store fails with [sql.ErrNoRows]. *)
Definition W_unconfigured : Collaborators :=
  {| token_AuthKeyFromFile := λ _ _, Fail (foreign_error "open : no such file or directory");
     apns2_PushWithContext := λ _ _ _ _, Ok sent_response;
     firebase_NewApp := λ _ _ _ _, Some (foreign_error "cannot read credentials file");
     app_Messaging := λ _ _ _, None;
     messaging_Send := λ _ _ _ _, Ok "projects/p/messages/1";
     sql_QueryContext := λ _ _ _ _ _, Fail sql_ErrNoRows;
     json_Unmarshal := sample_Unmarshal |}.

Definition bg_ctx : Context := {| ctx_id := 0 |}.
Definition req_ctx : Context := {| ctx_id := 1 |}.
Definition logger0 : Logger := {| logger_id := 0 |}.
Definition db0 : DB := {| db_id := 0 |}.
Definition nk0 : NakamaModule := {| nk_id := 0 |}.

Definition sample_env : gmap string string :=
  {[ "APNS_ENVIRONMENT" := "development";
     "APNS_TOPIC" := "com.example.game";
     "FCM_PROJECT_ID" := "game-1" ]}.

(** A process right after [NewPushClientFromEnv]. *)
Definition s_boot : State := boot (NewPushClientFromEnv bg_ctx sample_env).

(** ** Further readings of a history *)

(** Queries sent to the store: handle, context, text and argument. *)
Definition queries_of (h : History) : list (DB * Context * string * string) :=
  omap (λ e, match e with
             | EvQueryContext db c q a _ => Some (db, c, q, a)
             | _ => None
             end) h.

(** One entry per [rows.Close]. *)
Definition closes_of (h : History) : list unit :=
  omap (λ e, match e with EvRowsClose => Some tt | _ => None end) h.

(** Lines written with [logger.Debug]. *)
Definition debug_logs (h : History) : list (Logger * string * error) :=
  omap (λ e, match e with EvDebug l f a => Some (l, f, a) | _ => None end) h.

(** Calls into the APNs side: key loading, client creation and pushes. *)
Definition apns_events (h : History) : list Event :=
  omap (λ e, match e with
             | EvAuthKeyFromFile _ _ | EvNewTokenClient _
             | EvPushWithContext _ _ _ _ => Some e
             | _ => None
             end) h.

(** Calls into the FCM side: app creation, messaging client and sends. *)
Definition fcm_events (h : History) : list Event :=
  omap (λ e, match e with
             | EvNewApp _ _ _ _ | EvMessaging _ _ _ | EvSend _ _ _ _ => Some e
             | _ => None
             end) h.

(** Contexts given to [firebase.NewApp] and [app.Messaging]. *)
Definition fcm_construction_ctxs (h : History) : list Context :=
  omap (λ e, match e with
             | EvNewApp c _ _ _ | EvMessaging _ c _ => Some c
             | _ => None
             end) h.

(** Contexts given to [PushWithContext] and [Send]. *)
Definition send_ctxs (h : History) : list Context :=
  omap (λ e, match e with
             | EvPushWithContext _ c _ _ | EvSend _ c _ _ => Some c
             | _ => None
             end) h.

(** The FCM messages of the Firebase calls of a plan, in order. *)
Definition planned_messages (cs : list Call) : list messaging.Message :=
  omap (λ c, match c with
             | CallSendFirebasePush _ deviceToken title body imageURL externalID =>
                 Some (firebase_message deviceToken title body imageURL externalID)
             | CallSendApplePush _ _ _ _ _ _ => None
             end) cs.

(** The APNs notifications of the Apple calls of a plan, in order. *)
Definition planned_notifications (creds : APNSCredentials) (cs : list Call)
    : list apns2.Notification :=
  omap (λ c, match c with
             | CallSendApplePush _ deviceToken title body imageURL externalID =>
                 Some (apple_notification creds deviceToken title body imageURL externalID)
             | CallSendFirebasePush _ _ _ _ _ _ => None
             end) cs.

(** A cached handle was built from the client's credentials: the APNs token
    carries the credential's key id and team id and a key that was loaded
    from the credential's key file; the FCM app carries the credential's
    project id and credentials file. *)
Record built_from_creds (s : State) : Prop := {
  bfc_apns : ∀ cl, apnsClient (pc s) = Some cl →
    token.KeyID (apns2.Token cl) = P8AuthKeyID (apnsCreds (pc s)) ∧
    token.TeamID (apns2.Token cl) = TeamID (apnsCreds (pc s)) ∧
    EvAuthKeyFromFile (P8AuthKeyFilePath (apnsCreds (pc s)))
      (Ok (token.AuthKey_ (apns2.Token cl))) ∈ history s;
  bfc_fcm : ∀ cl, fcmClient (pc s) = Some cl →
    firebase.config (messaging.app cl) =
      {| firebase.ProjectID := ProjectID (fcmCreds (pc s)) |} ∧
    firebase.opts (messaging.app cl) = CredentialsFilePath (fcmCreds (pc s))
}.

Ltac read_more :=
  unfold queries_of, closes_of, debug_logs, apns_events, fcm_events,
    fcm_construction_ctxs, send_ctxs in *;
  rewrite ?omap_app in *; simpl in *;
  rewrite ?app_nil_r in *.

(** A second account behind the Android device of [android_request]. *)
Definition android_request_other_user : NotificationRequest :=
  {| UserID := "u3"; DeviceToken := "tok-android"; Title := "Hi"; Body := "there";
     ImageURL := "https://img"; ExternalID := "x2"; IsIOS := false |}.

(** As [W_ok], with a decoder that also knows a payload of the second
    account. *)
Definition W_two_users : Collaborators :=
  {| token_AuthKeyFromFile := token_AuthKeyFromFile W_ok;
     apns2_PushWithContext := apns2_PushWithContext W_ok;
     firebase_NewApp := firebase_NewApp W_ok;
     app_Messaging := app_Messaging W_ok;
     messaging_Send := messaging_Send W_ok;
     sql_QueryContext := sql_QueryContext W_ok;
     json_Unmarshal := λ payload,
       if String.eqb payload "android-u3" then Ok android_request_other_user
       else sample_Unmarshal payload |}.

(** Device rows that carry no usable token: a NULL column and an empty
    string. *)
Definition null_tokens_row : sql.Row :=
  {| sql.id := "d3";
     sql.push_token_android := {| sql.String_ := ""; sql.Valid := false |};
     sql.push_token_ios := {| sql.String_ := ""; sql.Valid := false |} |}.

Definition empty_tokens_row : sql.Row :=
  {| sql.id := "d4";
     sql.push_token_android := {| sql.String_ := ""; sql.Valid := true |};
     sql.push_token_ios := {| sql.String_ := ""; sql.Valid := true |} |}.

(** As [W_ok], with a store that has further users: one whose rows carry no
    token, one whose second row fails to scan, and one for whom the query
    itself fails. *)
Definition W_store : Collaborators :=
  {| token_AuthKeyFromFile := token_AuthKeyFromFile W_ok;
     apns2_PushWithContext := apns2_PushWithContext W_ok;
     firebase_NewApp := firebase_NewApp W_ok;
     app_Messaging := app_Messaging W_ok;
     messaging_Send := messaging_Send W_ok;
     sql_QueryContext := λ _ _ _ _ userID,
       if String.eqb userID "u-no-tokens"
       then Ok [Ok null_tokens_row; Ok empty_tokens_row]
       else if String.eqb userID "u-bad-row"
       then Ok [Ok android_only_row; Fail (foreign_error "sql: Scan error on column index 1");
                Ok both_tokens_row]
       else if String.eqb userID "u-down"
       then Fail (foreign_error "driver: bad connection")
       else sample_QueryContext userID;
     json_Unmarshal := json_Unmarshal W_ok |}.

(** ** Properties *)

Example responseJSON_length : String.length responseJSON = 50.
Proof. reflexivity. Qed.

Ltac unfold_M :=
  unfold mbind, M_bind, mret, M_ret, emit, past, receiver, alloc,
    store_apnsClient, store_fcmClient in *.

Ltac unfold_calls :=
  unfold call_AuthKeyFromFile, call_NewTokenClient, call_PushWithContext,
    call_NewApp, call_Messaging, call_Send, call_QueryContext in *.

Ltac read_history :=
  unfold calls_of, apns_built, apns_used, apns_submitted, apns_key_loads,
    fcm_built, fcm_used, fcm_submitted, fcm_app_attempts in *;
  rewrite ?omap_app in *; simpl in *;
  rewrite ?app_nil_r in *.

Section Properties.

Variable W : Collaborators.

(** The complete case analysis of [SendApplePush]. *)
Lemma SendApplePush_cases ctx0 deviceToken title body imageURL externalID s :
  let n := apple_notification (apnsCreds (pc s)) deviceToken title body imageURL externalID in
  let h1 := history s ++
    [EvCall (CallSendApplePush ctx0 deviceToken title body imageURL externalID)] in
  let path := P8AuthKeyFilePath (apnsCreds (pc s)) in
  SendApplePush W ctx0 deviceToken title body imageURL externalID s =
  match apnsClient (pc s) with
  | Some cl =>
      let r := apns2_PushWithContext W h1 cl ctx0 n in
      (apple_outcome r,
       {| pc := pc s;
          history := h1 ++ [EvPushWithContext cl ctx0 n r];
          next_addr := next_addr s |})
  | None =>
      match token_AuthKeyFromFile W h1 path with
      | Fail err =>
          (Some err,
           {| pc := pc s;
              history := h1 ++ [EvAuthKeyFromFile path (Fail err)];
              next_addr := next_addr s |})
      | Ok authKey =>
          let fresh :=
            {| apns2.addr := next_addr s;
               apns2.Token := {| token.AuthKey_ := authKey;
                                 token.KeyID := P8AuthKeyID (apnsCreds (pc s));
                                 token.TeamID := TeamID (apnsCreds (pc s)) |};
               apns2.Host := apns2.DefaultHost |} in
          let cl :=
            {| apns2.addr := next_addr s;
               apns2.Token := apns2.Token fresh;
               apns2.Host := chosen_host (apnsCreds (pc s)) |} in
          let h2 := h1 ++ [EvAuthKeyFromFile path (Ok authKey)] ++ [EvNewTokenClient fresh] in
          let r := apns2_PushWithContext W h2 cl ctx0 n in
          (apple_outcome r,
           {| pc := {| apnsClient := Some cl;
                       apnsCreds := apnsCreds (pc s);
                       ctx := ctx (pc s);
                       fcmClient := fcmClient (pc s);
                       fcmCreds := fcmCreds (pc s) |};
              history := h2 ++ [EvPushWithContext cl ctx0 n r];
              next_addr := S (next_addr s) |})
      end
  end.
Proof.
  unfold SendApplePush, getAPNSClient. unfold_calls. unfold_M. simpl.
  destruct (apnsClient (pc s)) as [cl|] eqn:Hc; simpl.
  - unfold apple_outcome.
    destruct (apns2_PushWithContext W _ cl ctx0 _) as [resp|err]; simpl; [|done].
    by destruct (apns2.Sent resp).
  - destruct (token_AuthKeyFromFile W _ _) as [authKey|err]; simpl; [|done].
    unfold chosen_host, apple_outcome, apns2.Development, apns2.Production.
    destruct (String.eqb (Environment (apnsCreds (pc s))) "development"); simpl;
      rewrite <- !app_assoc; simpl;
      match goal with |- context [apns2_PushWithContext W ?h ?c ?x ?n] =>
        destruct (apns2_PushWithContext W h c x n) as [resp|err]; simpl; [|done] end;
      by destruct (apns2.Sent resp).
Qed.

(** The complete case analysis of [SendFirebasePush]. *)
Lemma SendFirebasePush_cases ctx0 deviceToken title body imageURL externalID s :
  let m := firebase_message deviceToken title body imageURL externalID in
  let h1 := history s ++
    [EvCall (CallSendFirebasePush ctx0 deviceToken title body imageURL externalID)] in
  let opts := CredentialsFilePath (fcmCreds (pc s)) in
  let cfg := {| firebase.ProjectID := ProjectID (fcmCreds (pc s)) |} in
  SendFirebasePush W ctx0 deviceToken title body imageURL externalID s =
  match fcmClient (pc s) with
  | Some cl =>
      let r := messaging_Send W h1 cl ctx0 m in
      (firebase_outcome r,
       {| pc := pc s;
          history := h1 ++ [EvSend cl ctx0 m r];
          next_addr := next_addr s |})
  | None =>
      match firebase_NewApp W h1 (ctx (pc s)) cfg opts with
      | Some err =>
          (Some err,
           {| pc := pc s;
              history := h1 ++ [EvNewApp (ctx (pc s)) cfg opts (Fail err)];
              next_addr := next_addr s |})
      | None =>
          let app := {| firebase.addr := next_addr s; firebase.config := cfg;
                        firebase.opts := opts |} in
          let h2 := h1 ++ [EvNewApp (ctx (pc s)) cfg opts (Ok app)] in
          match app_Messaging W h2 app (ctx (pc s)) with
          | Some err =>
              (Some err,
               {| pc := pc s;
                  history := h2 ++ [EvMessaging app (ctx (pc s)) (Fail err)];
                  next_addr := S (next_addr s) |})
          | None =>
              let cl := {| messaging.addr := S (next_addr s);
                           messaging.app := app |} in
              let h3 := h2 ++ [EvMessaging app (ctx (pc s)) (Ok cl)] in
              let r := messaging_Send W h3 cl ctx0 m in
              (firebase_outcome r,
               {| pc := {| apnsClient := apnsClient (pc s);
                           apnsCreds := apnsCreds (pc s);
                           ctx := ctx (pc s);
                           fcmClient := Some cl;
                           fcmCreds := fcmCreds (pc s) |};
                  history := h3 ++ [EvSend cl ctx0 m r];
                  next_addr := S (S (next_addr s)) |})
          end
      end
  end.
Proof.
  unfold SendFirebasePush, getFCMClient. unfold_calls. unfold_M. simpl.
  unfold firebase_outcome.
  destruct (fcmClient (pc s)) as [cl|] eqn:Hc; simpl.
  - by destruct (messaging_Send W _ cl ctx0 _).
  - destruct (firebase_NewApp W _ _ _ _) as [err|]; simpl; [done|].
    destruct (app_Messaging W _ _ _) as [err|]; simpl; [done|].
    match goal with |- context [messaging_Send W ?h ?c ?x ?n] =>
      by destruct (messaging_Send W h c x n) end.
Qed.

(** *** Lifting a property of the two sends to every operation *)

Section Lifting.

Variable R : State → State → Prop.
Hypothesis R_refl : ∀ s, R s s.
Hypothesis R_trans : ∀ s1 s2 s3, R s1 s2 → R s2 s3 → R s1 s3.
Hypothesis R_apple : ∀ ctx0 deviceToken title body imageURL externalID s,
  R s (snd (SendApplePush W ctx0 deviceToken title body imageURL externalID s)).
Hypothesis R_firebase : ∀ ctx0 deviceToken title body imageURL externalID s,
  R s (snd (SendFirebasePush W ctx0 deviceToken title body imageURL externalID s)).
Hypothesis R_query : ∀ db ctx0 q arg r s, R s (log (EvQueryContext db ctx0 q arg r) s).
Hypothesis R_close : ∀ s, R s (log EvRowsClose s).
Hypothesis R_debug : ∀ logger format arg s, R s (log (EvDebug logger format arg) s).

Lemma rows_loop_lift ctx0 title body imageURL externalID rows s :
  R s (snd (rows_loop W ctx0 title body imageURL externalID rows s)).
Proof.
  revert s. induction rows as [|[row|err] rest IH]; intros s; simpl; [done| |done].
  unfold_M.
  destruct (token_present (sql.push_token_android row)).
  - pose proof (R_firebase ctx0 (sql.String_ (sql.push_token_android row))
                  title body imageURL externalID s) as H1.
    destruct (SendFirebasePush W _ _ _ _ _ _ s) as [[e|] s1]; simpl in *; [done|].
    destruct (token_present (sql.push_token_ios row)).
    + pose proof (R_apple ctx0 (sql.String_ (sql.push_token_ios row))
                    title body imageURL externalID s1) as H2.
      destruct (SendApplePush W _ _ _ _ _ _ s1) as [[e|] s2]; simpl in *; eauto.
    + eauto.
  - destruct (token_present (sql.push_token_ios row)).
    + pose proof (R_apple ctx0 (sql.String_ (sql.push_token_ios row))
                    title body imageURL externalID s) as H2.
      destruct (SendApplePush W _ _ _ _ _ _ s) as [[e|] s2]; simpl in *; eauto.
    + eauto.
Qed.

Lemma SendUserPush_lift ctx0 logger db userID title body imageURL externalID s :
  R s (snd (SendUserPush W ctx0 logger db userID title body imageURL externalID s)).
Proof.
  unfold SendUserPush, call_QueryContext. unfold_M. fold (log (EvQueryContext db ctx0 query userID
    (sql_QueryContext W (history s) db ctx0 query userID)) s).
  destruct (sql_QueryContext W (history s) db ctx0 query userID) as [rows|err].
  - match goal with |- context [rows_loop W ?a ?b ?c ?d ?e ?f ?st] =>
      pose proof (rows_loop_lift a b c d e f st) as H;
      destruct (rows_loop W a b c d e f st) as [r s1] end.
    simpl in *. fold (log EvRowsClose s1). eauto.
  - destruct (errors_Is_ErrNoRows err); simpl; eauto.
Qed.

Lemma RpcSendNotification_lift ctx0 logger db nk payload s :
  R s (snd (RpcSendNotification W ctx0 logger db nk payload s)).
Proof.
  unfold RpcSendNotification. unfold_M.
  destruct (json_Unmarshal W payload) as [req|err]; simpl; [|by apply R_debug].
  destruct (IsIOS req); simpl.
  - pose proof (R_apple ctx0 (DeviceToken req) (Title req) (Body req)
                  (ImageURL req) (ExternalID req) s) as H.
    by destruct (SendApplePush W _ _ _ _ _ _ s) as [[e|] s1].
  - pose proof (R_firebase ctx0 (DeviceToken req) (Title req) (Body req)
                  (ImageURL req) (ExternalID req) s) as H.
    by destruct (SendFirebasePush W _ _ _ _ _ _ s) as [[e|] s1].
Qed.

Lemma run_op_lift o s : R s (run_op W o s).
Proof.
  destruct o; simpl;
    auto using SendUserPush_lift, RpcSendNotification_lift.
Qed.

Lemma run_lift ops s : R s (run W ops s).
Proof.
  revert s. induction ops as [|o ops IH]; intros s; simpl; [done|].
  eapply R_trans; [apply run_op_lift | apply IH].
Qed.

End Lifting.

(** *** The two sends keep [grows] and [client_inv] *)

Lemma grows_refl s : grows s s.
Proof. split; auto. exists []. by rewrite app_nil_r. Qed.

Lemma grows_trans s1 s2 s3 : grows s1 s2 → grows s2 s3 → grows s1 s3.
Proof.
  intros [[n1 H1] ? ? ? ? ?] [[n2 H2] ? ? ? ? ?]. split; try congruence; auto.
  exists (n1 ++ n2). by rewrite H2, H1, app_assoc.
Qed.

Lemma grows_log e s : grows s (log e s).
Proof. split; simpl; auto. by exists [e]. Qed.

Lemma SendApplePush_grows ctx0 deviceToken title body imageURL externalID s :
  grows s (snd (SendApplePush W ctx0 deviceToken title body imageURL externalID s)).
Proof.
  rewrite SendApplePush_cases.
  destruct (apnsClient (pc s)) as [cl|] eqn:Hc; simpl.
  - split; simpl; auto. rewrite <- app_assoc. eauto.
  - destruct (token_AuthKeyFromFile W _ _) as [authKey|err]; simpl;
      split; simpl; auto; try congruence; rewrite <- ?app_assoc; eauto.
Qed.

Lemma SendFirebasePush_grows ctx0 deviceToken title body imageURL externalID s :
  grows s (snd (SendFirebasePush W ctx0 deviceToken title body imageURL externalID s)).
Proof.
  rewrite SendFirebasePush_cases.
  destruct (fcmClient (pc s)) as [cl|] eqn:Hc; simpl.
  - split; simpl; auto. rewrite <- app_assoc. eauto.
  - destruct (firebase_NewApp W _ _ _ _) as [err|]; simpl.
    { split; simpl; auto. rewrite <- !app_assoc. eauto. }
    destruct (app_Messaging W _ _ _) as [err|]; simpl;
      split; simpl; auto; try congruence; rewrite <- ?app_assoc; eauto.
Qed.

Lemma client_inv_log e s :
  match e with EvQueryContext _ _ _ _ _ | EvRowsClose | EvDebug _ _ _ => True
             | _ => False end →
  client_inv s → client_inv (log e s).
Proof.
  intros He [H1 H2 H3 H4 H5].
  destruct e; try done; split; simpl; read_history; auto.
Qed.

Lemma SendApplePush_client_inv ctx0 deviceToken title body imageURL externalID s :
  client_inv s →
  client_inv (snd (SendApplePush W ctx0 deviceToken title body imageURL externalID s)).
Proof.
  intros [H1 H2 H3 H4 H5]. rewrite SendApplePush_cases.
  destruct (apnsClient (pc s)) as [cl|] eqn:Hc; simpl.
  - split; simpl; read_history; rewrite ?Hc; auto.
    intros cl' [Hin| ->%list_elem_of_singleton]%elem_of_app; auto.
  - destruct (token_AuthKeyFromFile W _ _) as [authKey|err]; simpl.
    + split; simpl; read_history; auto.
      * by rewrite map_app, H1.
      * intros cl' [Hin| ->%list_elem_of_singleton]%elem_of_app; [|done].
        by apply H2 in Hin.
      * by intros cl' [= <-].
    + split; simpl; read_history; rewrite ?Hc; auto.
Qed.

Lemma SendFirebasePush_client_inv ctx0 deviceToken title body imageURL externalID s :
  client_inv s →
  client_inv (snd (SendFirebasePush W ctx0 deviceToken title body imageURL externalID s)).
Proof.
  intros [H1 H2 H3 H4 H5]. rewrite SendFirebasePush_cases.
  destruct (fcmClient (pc s)) as [cl|] eqn:Hc; simpl.
  - split; simpl; read_history; rewrite ?Hc; auto.
    intros cl' [Hin| ->%list_elem_of_singleton]%elem_of_app; auto.
  - destruct (firebase_NewApp W _ _ _ _) as [err|]; simpl.
    { split; simpl; read_history; rewrite ?Hc; auto. }
    destruct (app_Messaging W _ _ _) as [err|]; simpl.
    { split; simpl; read_history; rewrite ?Hc; auto. }
    split; simpl; read_history; auto.
    + by rewrite H4.
    + intros cl' [Hin| ->%list_elem_of_singleton]%elem_of_app; [|done].
      by apply H5 in Hin.
Qed.

(** Every operation keeps both. *)
Lemma run_grows ops s : grows s (run W ops s).
Proof.
  apply run_lift; eauto using grows_refl, grows_trans, grows_log,
    SendApplePush_grows, SendFirebasePush_grows.
Qed.

Lemma run_client_inv ops s : client_inv s → client_inv (run W ops s).
Proof.
  apply (run_lift (λ s s', client_inv s → client_inv s')); eauto.
  - intros. by apply SendApplePush_client_inv.
  - intros. by apply SendFirebasePush_client_inv.
  - intros. by apply client_inv_log.
  - intros. by apply client_inv_log.
  - intros. by apply client_inv_log.
Qed.

Lemma client_inv_boot c :
  apnsClient c = None → fcmClient c = None → client_inv (boot c).
Proof.
  intros Ha Hf. split; simpl; rewrite ?Ha, ?Hf; try done.
  - intros cl Hin. by apply elem_of_nil in Hin.
  - intros cl Hin. by apply elem_of_nil in Hin.
Qed.


(** *** The sends in terms of their lazy getter *)

Lemma SendApplePush_unfold ctx0 deviceToken title body imageURL externalID s :
  let s1 := log (EvCall (CallSendApplePush ctx0 deviceToken title body imageURL externalID)) s in
  let n := apple_notification (apnsCreds (pc s)) deviceToken title body imageURL externalID in
  SendApplePush W ctx0 deviceToken title body imageURL externalID s =
  match getAPNSClient W s1 with
  | (Fail err, s2) => (Some err, s2)
  | (Ok cl, s2) =>
      let r := apns2_PushWithContext W (history s2) cl ctx0 n in
      (apple_outcome r, log (EvPushWithContext cl ctx0 n r) s2)
  end.
Proof.
  unfold SendApplePush, call_PushWithContext, log. unfold_M. simpl.
  destruct (getAPNSClient W _) as [[cl|err] s2]; simpl; [|done].
  unfold apple_outcome.
  destruct (apns2_PushWithContext W _ _ _ _) as [resp|err]; simpl; [|done].
  by destruct (apns2.Sent resp).
Qed.

Lemma SendFirebasePush_unfold ctx0 deviceToken title body imageURL externalID s :
  let s1 := log (EvCall (CallSendFirebasePush ctx0 deviceToken title body imageURL externalID)) s in
  let m := firebase_message deviceToken title body imageURL externalID in
  SendFirebasePush W ctx0 deviceToken title body imageURL externalID s =
  match getFCMClient W s1 with
  | (Fail err, s2) => (Some err, s2)
  | (Ok cl, s2) =>
      let r := messaging_Send W (history s2) cl ctx0 m in
      (firebase_outcome r, log (EvSend cl ctx0 m r) s2)
  end.
Proof.
  unfold SendFirebasePush, call_Send, log. unfold_M. simpl.
  destruct (getFCMClient W _) as [[cl|err] s2]; simpl; [|done].
  unfold firebase_outcome.
  by destruct (messaging_Send W _ _ _ _).
Qed.

(** Each send records exactly its own entry. *)
Lemma SendApplePush_calls ctx0 deviceToken title body imageURL externalID s :
  ∃ new,
    history (snd (SendApplePush W ctx0 deviceToken title body imageURL externalID s)) =
      history s ++ new ∧
    calls_of new = [CallSendApplePush ctx0 deviceToken title body imageURL externalID].
Proof.
  rewrite SendApplePush_cases.
  destruct (apnsClient (pc s)) as [cl|]; simpl.
  - rewrite <- app_assoc. eexists; split; [done|]. by read_history.
  - destruct (token_AuthKeyFromFile W _ _) as [authKey|err]; simpl;
      rewrite <- ?app_assoc; (eexists; split; [done|]); by read_history.
Qed.

Lemma SendFirebasePush_calls ctx0 deviceToken title body imageURL externalID s :
  ∃ new,
    history (snd (SendFirebasePush W ctx0 deviceToken title body imageURL externalID s)) =
      history s ++ new ∧
    calls_of new = [CallSendFirebasePush ctx0 deviceToken title body imageURL externalID].
Proof.
  rewrite SendFirebasePush_cases.
  destruct (fcmClient (pc s)) as [cl|]; simpl.
  - rewrite <- app_assoc. eexists; split; [done|]. by read_history.
  - destruct (firebase_NewApp W _ _ _ _) as [err|]; simpl.
    { rewrite <- ?app_assoc. eexists; split; [done|]. by read_history. }
    destruct (app_Messaging W _ _ _) as [err|]; simpl;
      rewrite <- ?app_assoc; (eexists; split; [done|]); by read_history.
Qed.

Lemma do_call_calls c s :
  calls_of (history (snd (do_call W c s))) = calls_of (history s) ++ [c].
Proof.
  destruct c as [c0 d t b i e|c0 d t b i e]; simpl.
  - destruct (SendFirebasePush_calls c0 d t b i e s) as (new & -> & Hc).
    unfold calls_of in *. by rewrite omap_app, Hc.
  - destruct (SendApplePush_calls c0 d t b i e s) as (new & -> & Hc).
    unfold calls_of in *. by rewrite omap_app, Hc.
Qed.

(** *** The request handler *)

(** C1: for a payload that decodes to [req], the handler runs
    [SendFirebasePush] when [is_ios] is false and [SendApplePush] when it is
    true, on exactly the request's device token, title, body, image URL and
    external id, and makes no other provider call; when that send returns no
    error the handler returns the fixed success literal. *)
Theorem RpcSendNotification_dispatch ctx0 logger db nk payload req s :
  json_Unmarshal W payload = Ok req →
  let send := if IsIOS req then SendApplePush W else SendFirebasePush W in
  let call :=
    (if IsIOS req then CallSendApplePush else CallSendFirebasePush)
      ctx0 (DeviceToken req) (Title req) (Body req) (ImageURL req) (ExternalID req) in
  let sent :=
    send ctx0 (DeviceToken req) (Title req) (Body req) (ImageURL req) (ExternalID req) s in
  let out := RpcSendNotification W ctx0 logger db nk payload s in
  snd out = snd sent ∧
  (∃ new, history (snd out) = history s ++ new ∧ calls_of new = [call]) ∧
  (fst sent = None → fst out = (responseJSON, None)).
Proof.
  intros Hreq. unfold RpcSendNotification. rewrite Hreq. unfold_M.
  destruct (IsIOS req); simpl.
  - pose proof (SendApplePush_calls ctx0 (DeviceToken req) (Title req) (Body req)
                  (ImageURL req) (ExternalID req) s) as Hc.
    destruct (SendApplePush W _ _ _ _ _ _ s) as [[e|] s1]; simpl in *; done.
  - pose proof (SendFirebasePush_calls ctx0 (DeviceToken req) (Title req) (Body req)
                  (ImageURL req) (ExternalID req) s) as Hc.
    destruct (SendFirebasePush W _ _ _ _ _ _ s) as [[e|] s1]; simpl in *; done.
Qed.

(** C4: for a payload that fails to decode, the handler logs the decoding
    error at debug level and does nothing else, returns the empty string with
    the fixed bad-input error (whatever the decoding error was), and enters
    neither provider send. *)
Theorem RpcSendNotification_bad_input ctx0 logger db nk payload parse_err s :
  json_Unmarshal W payload = Fail parse_err →
  let out := RpcSendNotification W ctx0 logger db nk payload s in
  fst out = ("", Some hiro_ErrBadInput) ∧
  snd out = log (EvDebug logger "json.Unmarshal error: %v" parse_err) s ∧
  calls_of (history (snd out)) = calls_of (history s) ∧
  apns_submitted (history (snd out)) = apns_submitted (history s) ∧
  fcm_submitted (history (snd out)) = fcm_submitted (history s) ∧
  pc (snd out) = pc s.
Proof.
  intros Hreq. unfold RpcSendNotification. rewrite Hreq. unfold_M. simpl.
  repeat split; by read_history.
Qed.

(** *** The fan-out of [SendUserPush] *)

Lemma rows_loop_fanout ctx0 title body imageURL externalID rows s :
  let out := rows_loop W ctx0 title body imageURL externalID (map Ok rows) s in
  ∃ made,
    fanout W s (fanout_plan ctx0 title body imageURL externalID rows)
      (fst out) (snd out) made.
Proof.
  revert s. induction rows as [|row rest IH]; intros s; simpl.
  { exists []. constructor. }
  unfold fanout_plan. simpl. fold (fanout_plan ctx0 title body imageURL externalID rest).
  unfold row_calls. unfold_M.
  destruct (token_present (sql.push_token_android row));
    destruct (token_present (sql.push_token_ios row)); simpl.
  - destruct (SendFirebasePush W _ _ _ _ _ _ s) as [[e1|] s1] eqn:H1; simpl.
    { eexists. by apply fanout_abort. }
    destruct (SendApplePush W _ _ _ _ _ _ s1) as [[e2|] s2] eqn:H2; simpl.
    { eexists. eapply fanout_next; [done|]. by apply fanout_abort. }
    destruct (IH s2) as [made Hm].
    eexists. eapply fanout_next; [done|]. eapply fanout_next; [done|]. exact Hm.
  - destruct (SendFirebasePush W _ _ _ _ _ _ s) as [[e1|] s1] eqn:H1; simpl.
    { eexists. by apply fanout_abort. }
    destruct (IH s1) as [made Hm].
    eexists. eapply fanout_next; [done|]. exact Hm.
  - destruct (SendApplePush W _ _ _ _ _ _ s) as [[e2|] s2] eqn:H2; simpl.
    { eexists. by apply fanout_abort. }
    destruct (IH s2) as [made Hm].
    eexists. eapply fanout_next; [done|]. exact Hm.
  - apply IH.
Qed.

Lemma fanout_made plan s r s' made :
  fanout W s plan r s' made →
  calls_of (history s') = calls_of (history s) ++ made ∧
  made `prefix_of` plan ∧
  (r = None → made = plan).
Proof.
  induction 1 as [s|s c plan s1 r s2 made Hc _ (IH1 & IH2 & IH3)|s c plan err s1 Hc].
  - rewrite app_nil_r. done.
  - pose proof (do_call_calls c s) as Hd. rewrite Hc in Hd. simpl in Hd.
    split; [|split].
    + by rewrite IH1, Hd, <- app_assoc.
    + by apply prefix_cons.
    + intros ->. by rewrite IH3.
  - pose proof (do_call_calls c s) as Hd. rewrite Hc in Hd. simpl in Hd.
    split; [done|]. split; [|done].
    apply prefix_cons, prefix_nil.
Qed.

(** C5: for rows [rows] returned for the user, [SendUserPush] makes the
    planned provider sends in order (per row, Firebase for a present Android
    token, then Apple for a present iOS token), stopping at the first send
    that returns an error, which it returns unchanged; when nothing fails,
    every planned send is made.  An Android-only row plans one Firebase send
    and no Apple send; a row with both tokens plans one of each, Firebase
    first. *)
Theorem SendUserPush_fanout ctx0 logger db userID title body imageURL externalID rows s :
  sql_QueryContext W (history s) db ctx0 query userID = Ok (map Ok rows) →
  let plan := fanout_plan ctx0 title body imageURL externalID rows in
  let out := SendUserPush W ctx0 logger db userID title body imageURL externalID s in
  (∃ s1 made,
     fanout W (log (EvQueryContext db ctx0 query userID (Ok (map Ok rows))) s)
       plan (fst out) s1 made ∧
     snd out = log EvRowsClose s1 ∧
     calls_of (history (snd out)) = calls_of (history s) ++ made ∧
     made `prefix_of` plan ∧
     (fst out = None → made = plan)) ∧
  (∀ row,
     token_present (sql.push_token_android row) = true →
     token_present (sql.push_token_ios row) = false →
     row_calls ctx0 title body imageURL externalID row =
       [CallSendFirebasePush ctx0 (sql.String_ (sql.push_token_android row))
          title body imageURL externalID]) ∧
  (∀ row,
     token_present (sql.push_token_android row) = true →
     token_present (sql.push_token_ios row) = true →
     row_calls ctx0 title body imageURL externalID row =
       [CallSendFirebasePush ctx0 (sql.String_ (sql.push_token_android row))
          title body imageURL externalID;
        CallSendApplePush ctx0 (sql.String_ (sql.push_token_ios row))
          title body imageURL externalID]).
Proof.
  intros Hq. split; [|split].
  - unfold SendUserPush, call_QueryContext. unfold_M. rewrite Hq.
    fold (log (EvQueryContext db ctx0 query userID (Ok (map Ok rows))) s).
    set (s0 := log _ s).
    destruct (rows_loop_fanout ctx0 title body imageURL externalID rows s0) as [made Hm].
    destruct (rows_loop W _ _ _ _ _ _ s0) as [r s1]. simpl in *.
    destruct (fanout_made _ _ _ _ _ Hm) as (H1 & H2 & H3).
    exists s1, made. repeat split; try done.
    unfold calls_of in *. rewrite omap_app, H1. subst s0. simpl.
    by rewrite omap_app, !app_nil_r.
  - intros row Ha Hi. unfold row_calls. by rewrite Ha, Hi.
  - intros row Ha Hi. unfold row_calls. by rewrite Ha, Hi.
Qed.

(** When the store fails with an error that is [sql.ErrNoRows],
    [SendUserPush] returns a fresh "user not found" error and enters neither
    provider send. *)
Lemma SendUserPush_ErrNoRows ctx0 logger db userID title body imageURL externalID err s :
  sql_QueryContext W (history s) db ctx0 query userID = Fail err →
  errors_Is_ErrNoRows err = true →
  let out := SendUserPush W ctx0 logger db userID title body imageURL externalID s in
  fst out = Some (errors_New "user not found") ∧
  calls_of (history (snd out)) = calls_of (history s).
Proof.
  intros Hq He. unfold SendUserPush, call_QueryContext. unfold_M.
  rewrite Hq, He. simpl. split; [done|]. by read_history.
Qed.

(** C2, as the code behaves: when the query for the user id matches no row
    (the store answers with an empty row set and no error), [SendUserPush]
    enters neither provider send and returns [nil], not a "user not found"
    error. *)
Theorem SendUserPush_empty_row_set ctx0 logger db userID title body imageURL externalID s :
  sql_QueryContext W (history s) db ctx0 query userID = Ok [] →
  let out := SendUserPush W ctx0 logger db userID title body imageURL externalID s in
  fst out = None ∧
  fst out ≠ Some (errors_New "user not found") ∧
  calls_of (history (snd out)) = calls_of (history s) ∧
  snd out = log EvRowsClose (log (EvQueryContext db ctx0 query userID (Ok [])) s).
Proof.
  intros Hq. unfold SendUserPush, call_QueryContext. unfold_M.
  rewrite Hq. simpl. repeat split; try done. by read_history.
Qed.

(** *** Credential loading *)

(** C7: both loaders are total functions of the configuration map with no
    error result; each credential field is the map's value at its key, and
    the empty string when the key is missing. *)
Theorem credentials_from_env_lookup (env : gmap string string) (k v : string) :
  (k, v) ∈ loaded_fields env →
  v = default "" (env !! k) ∧
  (env !! k = None → v = "") ∧
  (∀ x, env !! k = Some x → v = x).
Proof.
  intros Hin. assert (v = default "" (env !! k)) as ->.
  { unfold loaded_fields in Hin.
    repeat (apply elem_of_cons in Hin as [[= -> ->]|Hin]; [done|]).
    by apply elem_of_nil in Hin. }
  split; [done|]. split; [by intros ->|by intros x ->].
Qed.

(** *** The lazy getters *)

Lemma getAPNSClient_cases s :
  let path := P8AuthKeyFilePath (apnsCreds (pc s)) in
  getAPNSClient W s =
  match apnsClient (pc s) with
  | Some cl => (Ok cl, s)
  | None =>
      match token_AuthKeyFromFile W (history s) path with
      | Fail err => (Fail err, log (EvAuthKeyFromFile path (Fail err)) s)
      | Ok authKey =>
          let fresh :=
            {| apns2.addr := next_addr s;
               apns2.Token := {| token.AuthKey_ := authKey;
                                 token.KeyID := P8AuthKeyID (apnsCreds (pc s));
                                 token.TeamID := TeamID (apnsCreds (pc s)) |};
               apns2.Host := apns2.DefaultHost |} in
          let cl :=
            {| apns2.addr := next_addr s;
               apns2.Token := apns2.Token fresh;
               apns2.Host := chosen_host (apnsCreds (pc s)) |} in
          (Ok cl,
           {| pc := {| apnsClient := Some cl;
                       apnsCreds := apnsCreds (pc s);
                       ctx := ctx (pc s);
                       fcmClient := fcmClient (pc s);
                       fcmCreds := fcmCreds (pc s) |};
              history := (history s ++ [EvAuthKeyFromFile path (Ok authKey)]) ++
                         [EvNewTokenClient fresh];
              next_addr := S (next_addr s) |})
      end
  end.
Proof.
  unfold getAPNSClient, log. unfold_calls. unfold_M. simpl.
  destruct (apnsClient (pc s)) as [cl|]; simpl; [done|].
  destruct (token_AuthKeyFromFile W _ _) as [authKey|err]; simpl; [|done].
  unfold chosen_host, apns2.Development, apns2.Production.
  by destruct (String.eqb (Environment (apnsCreds (pc s))) "development").
Qed.

Lemma getFCMClient_cases s :
  let opts := CredentialsFilePath (fcmCreds (pc s)) in
  let cfg := {| firebase.ProjectID := ProjectID (fcmCreds (pc s)) |} in
  getFCMClient W s =
  match fcmClient (pc s) with
  | Some cl => (Ok cl, s)
  | None =>
      match firebase_NewApp W (history s) (ctx (pc s)) cfg opts with
      | Some err => (Fail err, log (EvNewApp (ctx (pc s)) cfg opts (Fail err)) s)
      | None =>
          let app := {| firebase.addr := next_addr s; firebase.config := cfg;
                        firebase.opts := opts |} in
          let h2 := history s ++ [EvNewApp (ctx (pc s)) cfg opts (Ok app)] in
          match app_Messaging W h2 app (ctx (pc s)) with
          | Some err =>
              (Fail err,
               {| pc := pc s;
                  history := h2 ++ [EvMessaging app (ctx (pc s)) (Fail err)];
                  next_addr := S (next_addr s) |})
          | None =>
              let cl := {| messaging.addr := S (next_addr s);
                           messaging.app := app |} in
              (Ok cl,
               {| pc := {| apnsClient := apnsClient (pc s);
                           apnsCreds := apnsCreds (pc s);
                           ctx := ctx (pc s);
                           fcmClient := Some cl;
                           fcmCreds := fcmCreds (pc s) |};
                  history := h2 ++ [EvMessaging app (ctx (pc s)) (Ok cl)];
                  next_addr := S (S (next_addr s)) |})
          end
      end
  end.
Proof.
  unfold getFCMClient, log. unfold_calls. unfold_M. simpl.
  destruct (fcmClient (pc s)) as [cl|]; simpl; [done|].
  destruct (firebase_NewApp W _ _ _ _) as [err|]; simpl; [done|].
  by destruct (app_Messaging W _ _ _) as [err|].
Qed.

(** Neither getter hands anything to a vendor send, and a getter that fails
    leaves the client as it was, with its field still [nil]. *)
Lemma getAPNSClient_quiet s :
  let out := getAPNSClient W s in
  apns_submitted (history (snd out)) = apns_submitted (history s) ∧
  (∀ err, fst out = Fail err → apnsClient (pc s) = None ∧ pc (snd out) = pc s).
Proof.
  rewrite getAPNSClient_cases.
  destruct (apnsClient (pc s)) as [cl|]; simpl; [done|].
  destruct (token_AuthKeyFromFile W _ _) as [authKey|err]; simpl;
    split; try done; by read_history.
Qed.

Lemma getFCMClient_quiet s :
  let out := getFCMClient W s in
  fcm_submitted (history (snd out)) = fcm_submitted (history s) ∧
  (∀ err, fst out = Fail err → fcmClient (pc s) = None ∧ pc (snd out) = pc s).
Proof.
  rewrite getFCMClient_cases.
  destruct (fcmClient (pc s)) as [cl|]; simpl; [done|].
  destruct (firebase_NewApp W _ _ _ _) as [err|]; simpl.
  { split; try done; by read_history. }
  destruct (app_Messaging W _ _ _) as [err|]; simpl;
    split; try done; by read_history.
Qed.

(** A send on a client whose field is [nil] starts the construction. *)
Lemma SendApplePush_loads_key ctx0 deviceToken title body imageURL externalID s :
  apnsClient (pc s) = None →
  apns_key_loads
    (history (snd (SendApplePush W ctx0 deviceToken title body imageURL externalID s))) =
  apns_key_loads (history s) ++ [P8AuthKeyFilePath (apnsCreds (pc s))].
Proof.
  intros Hc. rewrite SendApplePush_cases, Hc.
  destruct (token_AuthKeyFromFile W _ _) as [authKey|err]; simpl; by read_history.
Qed.

Lemma SendFirebasePush_starts_app ctx0 deviceToken title body imageURL externalID s :
  fcmClient (pc s) = None →
  fcm_app_attempts
    (history (snd (SendFirebasePush W ctx0 deviceToken title body imageURL externalID s))) =
  fcm_app_attempts (history s) ++ [{| firebase.ProjectID := ProjectID (fcmCreds (pc s)) |}].
Proof.
  intros Hc. rewrite SendFirebasePush_cases, Hc.
  destruct (firebase_NewApp W _ _ _ _) as [err|]; simpl; [by read_history|].
  destruct (app_Messaging W _ _ _) as [err|]; simpl; by read_history.
Qed.

(** C10: when the lazy construction inside a send fails with [err], the send
    returns [err] itself, hands nothing to the vendor, and leaves the client
    field [nil]; the next send on the same client starts the construction
    again. *)
Theorem lazy_construction_failure ctx0 deviceToken title body imageURL externalID s :
  (∀ err,
   fst (getAPNSClient W
          (log (EvCall (CallSendApplePush ctx0 deviceToken title body imageURL externalID)) s))
     = Fail err →
   let out := SendApplePush W ctx0 deviceToken title body imageURL externalID s in
   fst out = Some err ∧
   apns_submitted (history (snd out)) = apns_submitted (history s) ∧
   apnsClient (pc (snd out)) = None ∧
   ∀ ctx' deviceToken' title' body' imageURL' externalID',
     apns_key_loads
       (history (snd (SendApplePush W ctx' deviceToken' title' body' imageURL'
                        externalID' (snd out)))) =
     apns_key_loads (history (snd out)) ++ [P8AuthKeyFilePath (apnsCreds (pc s))]) ∧
  (∀ err,
   fst (getFCMClient W
          (log (EvCall (CallSendFirebasePush ctx0 deviceToken title body imageURL externalID)) s))
     = Fail err →
   let out := SendFirebasePush W ctx0 deviceToken title body imageURL externalID s in
   fst out = Some err ∧
   fcm_submitted (history (snd out)) = fcm_submitted (history s) ∧
   fcmClient (pc (snd out)) = None ∧
   ∀ ctx' deviceToken' title' body' imageURL' externalID',
     fcm_app_attempts
       (history (snd (SendFirebasePush W ctx' deviceToken' title' body' imageURL'
                        externalID' (snd out)))) =
     fcm_app_attempts (history (snd out)) ++
       [{| firebase.ProjectID := ProjectID (fcmCreds (pc s)) |}]).
Proof.
  split; intros err Hfail; cbv zeta.
  - rewrite SendApplePush_unfold. cbv zeta.
    destruct (getAPNSClient_quiet
                (log (EvCall (CallSendApplePush ctx0 deviceToken title body imageURL externalID)) s))
      as [Hq Hpc].
    destruct (getAPNSClient W _) as [[cl|e] s2]; simpl in *; [done|].
    injection Hfail as ->. destruct (Hpc err eq_refl) as [Hnil Hsame].
    assert (apnsClient (pc s2) = None) as Hnil2 by (by rewrite Hsame).
    repeat split; try done.
    + rewrite Hq. by read_history.
    + intros. rewrite SendApplePush_loads_key by done. by rewrite Hsame.
  - rewrite SendFirebasePush_unfold. cbv zeta.
    destruct (getFCMClient_quiet
                (log (EvCall (CallSendFirebasePush ctx0 deviceToken title body imageURL externalID)) s))
      as [Hq Hpc].
    destruct (getFCMClient W _) as [[cl|e] s2]; simpl in *; [done|].
    injection Hfail as ->. destruct (Hpc err eq_refl) as [Hnil Hsame].
    assert (fcmClient (pc s2) = None) as Hnil2 by (by rewrite Hsame).
    repeat split; try done.
    + rewrite Hq. by read_history.
    + intros. rewrite SendFirebasePush_starts_app by done. by rewrite Hsame.
Qed.

(** *** What the sends build and submit *)

(** C9: [SendApplePush] builds a notification with title and body as the
    alert, the image URL and external id as the custom entries [image_url]
    and [external_id], the credential's topic and the given device token;
    [SendFirebasePush] builds a message with title, body and image URL in its
    notification object, the given device token, and the external id as the
    only entry of its data map.  Once the client is obtained, exactly that
    value is handed to the vendor; when construction fails nothing is. *)
Theorem provider_payloads ctx0 deviceToken title body imageURL externalID s :
  let n := apple_notification (apnsCreds (pc s)) deviceToken title body imageURL externalID in
  let m := firebase_message deviceToken title body imageURL externalID in
  let outA := SendApplePush W ctx0 deviceToken title body imageURL externalID s in
  let outF := SendFirebasePush W ctx0 deviceToken title body imageURL externalID s in
  (payload.alert_title (apns2.Payload n) = title ∧
   payload.alert_body (apns2.Payload n) = body ∧
   payload.custom (apns2.Payload n) =
     {[ "image_url" := imageURL; "external_id" := externalID ]} ∧
   apns2.Topic n = Topic (apnsCreds (pc s)) ∧
   apns2.DeviceToken n = deviceToken) ∧
  (messaging.Notification_ m =
     {| messaging.Title := title; messaging.Body := body;
        messaging.ImageURL := imageURL |} ∧
   messaging.Token m = deviceToken ∧
   messaging.Data m = {[ "external_id" := externalID ]} ∧
   size (messaging.Data m) = 1) ∧
  apns_submitted (history (snd outA)) =
    apns_submitted (history s) ++
    match fst (getAPNSClient W
                 (log (EvCall (CallSendApplePush ctx0 deviceToken title body
                                 imageURL externalID)) s)) with
    | Ok _ => [n]
    | Fail _ => []
    end ∧
  fcm_submitted (history (snd outF)) =
    fcm_submitted (history s) ++
    match fst (getFCMClient W
                 (log (EvCall (CallSendFirebasePush ctx0 deviceToken title body
                                 imageURL externalID)) s)) with
    | Ok _ => [m]
    | Fail _ => []
    end.
Proof.
  cbv zeta. split; [|split; [|split]].
  - repeat split; simpl; try done; by apply insert_insert_ne.
  - repeat split; simpl; try done; apply map_size_singleton.
  - rewrite SendApplePush_unfold. cbv zeta.
    destruct (getAPNSClient_quiet
                (log (EvCall (CallSendApplePush ctx0 deviceToken title body imageURL externalID)) s))
      as [Hq _].
    destruct (getAPNSClient W _) as [[cl|e] s2]; simpl in *.
    + unfold apns_submitted in *. rewrite omap_app, Hq. simpl.
      by rewrite omap_app, app_nil_r.
    + rewrite Hq. by read_history.
  - rewrite SendFirebasePush_unfold. cbv zeta.
    destruct (getFCMClient_quiet
                (log (EvCall (CallSendFirebasePush ctx0 deviceToken title body imageURL externalID)) s))
      as [Hq _].
    destruct (getFCMClient W _) as [[cl|e] s2]; simpl in *.
    + unfold fcm_submitted in *. rewrite omap_app, Hq. simpl.
      by rewrite omap_app, app_nil_r.
    + rewrite Hq. by read_history.
Qed.

(** *** Failure shapes of [SendApplePush] *)

(** The message of a delivery failure made from a provider's reason is that
    reason. *)
Lemma Error_of_rejection reason :
  Error (PushNotificationDeliveryFailed (errors_New reason)) = reason.
Proof. reflexivity. Qed.

(** C3, as the code behaves: an error of the lazy client construction is
    returned as it is; once the client is obtained, an error of the vendor
    push call and a response that is not [Sent] are both returned wrapped in
    [PushNotificationDeliveryFailed], the first carrying the call's error and
    the second an error made from the response's reason, so every error of
    the push step has the delivery-failed kind. *)
Theorem SendApplePush_failure_shapes ctx0 deviceToken title body imageURL externalID s :
  let s1 := log (EvCall (CallSendApplePush ctx0 deviceToken title body imageURL externalID)) s in
  let n := apple_notification (apnsCreds (pc s)) deviceToken title body imageURL externalID in
  let out := SendApplePush W ctx0 deviceToken title body imageURL externalID s in
  (∀ err s2, getAPNSClient W s1 = (Fail err, s2) → fst out = Some err) ∧
  (∀ cl s2, getAPNSClient W s1 = (Ok cl, s2) →
     match apns2_PushWithContext W (history s2) cl ctx0 n with
     | Fail err => fst out = Some (PushNotificationDeliveryFailed err)
     | Ok response =>
         if apns2.Sent response
         then fst out = None
         else fst out = Some (PushNotificationDeliveryFailed
                                (errors_New (apns2.Reason response)))
     end ∧
     ∀ e, fst out = Some e → is_delivery_failed e = true).
Proof.
  cbv zeta. rewrite SendApplePush_unfold. cbv zeta. split.
  - by intros err s2 ->.
  - intros cl s2 ->. simpl. unfold apple_outcome.
    destruct (apns2_PushWithContext W _ _ _ _) as [resp|err]; simpl.
    + destruct (apns2.Sent resp); simpl; split; try done. by intros e [= <-].
    + split; [done|]. by intros e [= <-].
Qed.

(** *** One client per provider *)

(** C6: on a client made by [NewPushClient], after any operations, each
    client field is [nil] with nothing built or holds the single client built
    so far, and every vendor send went through it; once a field holds a
    handle, further operations keep that handle, build no other client for
    that provider, and send only through it. *)
Theorem clients_constructed_at_most_once ctx0 apnsCreds0 fcmCreds0 ops more :
  let s := run W ops (boot (NewPushClient ctx0 apnsCreds0 fcmCreds0)) in
  let s' := run W more s in
  client_inv s ∧
  (∀ o, client_inv (run_op W o s)) ∧
  length (apns_built (history s)) ≤ 1 ∧
  length (fcm_built (history s)) ≤ 1 ∧
  (∀ cl, apnsClient (pc s) = Some cl →
     apnsClient (pc s') = Some cl ∧
     apns_built (history s') = apns_built (history s) ∧
     ∀ cl', cl' ∈ apns_used (history s') → cl' = cl) ∧
  (∀ cl, fcmClient (pc s) = Some cl →
     fcmClient (pc s') = Some cl ∧
     fcm_built (history s') = fcm_built (history s) ∧
     ∀ cl', cl' ∈ fcm_used (history s') → cl' = cl).
Proof.
  cbv zeta. set (s := run W ops _). set (s' := run W more s).
  assert (client_inv s) as Hinv by (by apply run_client_inv, client_inv_boot).
  assert (client_inv s') as Hinv' by (by apply run_client_inv).
  pose proof (run_grows more s) as Hg. fold s' in Hg.
  destruct Hg as [[new Hnew] _ _ _ Hga Hgf].
  split; [done|]. split; [|split; [|split; [|split]]].
  - intros o. by apply (run_client_inv [o]).
  - pose proof (inv_apns_built s Hinv) as Hb.
    apply (f_equal length) in Hb. rewrite length_map in Hb. rewrite Hb.
    destruct (apnsClient (pc s)); simpl; lia.
  - rewrite (inv_fcm_built s Hinv). destruct (fcmClient (pc s)); simpl; lia.
  - intros cl Hcl. pose proof (Hga cl Hcl) as Hcl'. split; [done|]. split.
    + pose proof (inv_apns_built s Hinv) as Hb.
      pose proof (inv_apns_built s' Hinv') as Hb'.
      rewrite Hcl in Hb. rewrite Hcl', Hnew in Hb'.
      unfold apns_built in *. rewrite Hnew, omap_app.
      rewrite omap_app, map_app, Hb in Hb'.
      injection Hb' as Hb'. apply map_eq_nil in Hb'. by rewrite Hb', app_nil_r.
    + intros cl' Hin. apply (inv_apns_used s' Hinv') in Hin. congruence.
  - intros cl Hcl. pose proof (Hgf cl Hcl) as Hcl'. split; [done|]. split.
    + pose proof (inv_fcm_built s Hinv) as Hb.
      pose proof (inv_fcm_built s' Hinv') as Hb'.
      rewrite Hcl in Hb. rewrite Hcl', Hnew in Hb'.
      unfold fcm_built in *. rewrite Hnew, omap_app.
      rewrite omap_app, Hb in Hb'.
      injection Hb' as Hb'. by rewrite Hb', app_nil_r.
    + intros cl' Hin. apply (inv_fcm_used s' Hinv') in Hin. congruence.
Qed.

(** C8: the APNs host is chosen inside the lazy construction, development
    exactly when the credential's environment string is ["development"] and
    production otherwise; a client whose field already holds a handle uses
    that handle as it is, without loading a key or choosing again, whatever
    its state says; so every push of a client made by [NewPushClient] goes to
    the host chosen from its credentials. *)
Theorem apns_environment_chosen_once :
  (∀ creds,
     (Environment creds = "development" → chosen_host creds = apns2.HostDevelopment) ∧
     (Environment creds ≠ "development" → chosen_host creds = apns2.HostProduction)) ∧
  (∀ s cl s2,
     apnsClient (pc s) = None →
     getAPNSClient W s = (Ok cl, s2) →
     apns2.Host cl = chosen_host (apnsCreds (pc s)) ∧
     apnsClient (pc s2) = Some cl) ∧
  (∀ s cl ctx0 deviceToken title body imageURL externalID,
     apnsClient (pc s) = Some cl →
     getAPNSClient W s = (Ok cl, s) ∧
     let s' := snd (SendApplePush W ctx0 deviceToken title body imageURL externalID s) in
     apns_used (history s') = apns_used (history s) ++ [cl] ∧
     apns_key_loads (history s') = apns_key_loads (history s) ∧
     apns_built (history s') = apns_built (history s) ∧
     apnsClient (pc s') = Some cl) ∧
  (∀ ctx0 apnsCreds0 fcmCreds0 ops cl,
     cl ∈ apns_used (history (run W ops (boot (NewPushClient ctx0 apnsCreds0 fcmCreds0)))) →
     apns2.Host cl = chosen_host apnsCreds0).
Proof.
  split; [|split; [|split]].
  - intros creds. unfold chosen_host.
    destruct (String.eqb_spec (Environment creds) "development"); by split.
  - intros s cl s2 Hnil. rewrite getAPNSClient_cases, Hnil.
    destruct (token_AuthKeyFromFile W _ _) as [authKey|err]; [|done].
    by intros [= <- <-].
  - intros s cl ctx0 deviceToken title body imageURL externalID Hcl.
    split; [by rewrite getAPNSClient_cases, Hcl|].
    cbv zeta. rewrite SendApplePush_cases, Hcl. simpl.
    repeat split; try done; by read_history.
  - intros ctx0 apnsCreds0 fcmCreds0 ops cl Hin.
    set (s := run W ops _) in *.
    assert (client_inv s) as Hinv by (by apply run_client_inv, client_inv_boot).
    pose proof (run_grows ops (boot (NewPushClient ctx0 apnsCreds0 fcmCreds0))) as Hg.
    fold s in Hg. apply (inv_apns_used s Hinv) in Hin.
    rewrite (inv_apns_host s Hinv cl Hin). by rewrite (grows_apnsCreds _ _ Hg).
Qed.

(** *** What a send leaves alone *)

Lemma SendApplePush_frame ctx0 deviceToken title body imageURL externalID s :
  let s' := snd (SendApplePush W ctx0 deviceToken title body imageURL externalID s) in
  queries_of (history s') = queries_of (history s) ∧
  closes_of (history s') = closes_of (history s) ∧
  debug_logs (history s') = debug_logs (history s) ∧
  fcm_events (history s') = fcm_events (history s) ∧
  fcm_submitted (history s') = fcm_submitted (history s) ∧
  fcmClient (pc s') = fcmClient (pc s).
Proof.
  cbv zeta. rewrite SendApplePush_cases.
  destruct (apnsClient (pc s)) as [cl|]; simpl.
  - repeat split; by (read_more; read_history).
  - destruct (token_AuthKeyFromFile W _ _) as [authKey|err]; simpl;
      repeat split; by (read_more; read_history).
Qed.

Lemma SendFirebasePush_frame ctx0 deviceToken title body imageURL externalID s :
  let s' := snd (SendFirebasePush W ctx0 deviceToken title body imageURL externalID s) in
  queries_of (history s') = queries_of (history s) ∧
  closes_of (history s') = closes_of (history s) ∧
  debug_logs (history s') = debug_logs (history s) ∧
  apns_events (history s') = apns_events (history s) ∧
  apns_submitted (history s') = apns_submitted (history s) ∧
  apnsClient (pc s') = apnsClient (pc s).
Proof.
  cbv zeta. rewrite SendFirebasePush_cases.
  destruct (fcmClient (pc s)) as [cl|]; simpl.
  - repeat split; by (read_more; read_history).
  - destruct (firebase_NewApp W _ _ _ _) as [err|]; simpl.
    { repeat split; by (read_more; read_history). }
    destruct (app_Messaging W _ _ _) as [err|]; simpl;
      repeat split; by (read_more; read_history).
Qed.

(** X15: a send to one provider never calls into the other provider's SDK and
    never touches the other provider's cached handle. *)
Theorem providers_are_isolated ctx0 deviceToken title body imageURL externalID s :
  let sA := snd (SendApplePush W ctx0 deviceToken title body imageURL externalID s) in
  let sF := snd (SendFirebasePush W ctx0 deviceToken title body imageURL externalID s) in
  (fcm_events (history sA) = fcm_events (history s) ∧
   fcmClient (pc sA) = fcmClient (pc s)) ∧
  (apns_events (history sF) = apns_events (history s) ∧
   apnsClient (pc sF) = apnsClient (pc s)).
Proof.
  cbv zeta.
  destruct (SendApplePush_frame ctx0 deviceToken title body imageURL externalID s)
    as (_ & _ & _ & H1 & _ & H2).
  destruct (SendFirebasePush_frame ctx0 deviceToken title body imageURL externalID s)
    as (_ & _ & _ & H3 & _ & H4).
  done.
Qed.

(** *** Outcomes of the two sends *)

(** X1: [SendFirebasePush] returns an error of the lazy client construction
    as it is, returns an error of the vendor [Send] wrapped in
    [PushNotificationDeliveryFailed], and returns [nil] when [Send] answers
    without error. *)
Theorem SendFirebasePush_failure_shapes ctx0 deviceToken title body imageURL externalID s :
  let s1 := log (EvCall (CallSendFirebasePush ctx0 deviceToken title body imageURL externalID)) s in
  let m := firebase_message deviceToken title body imageURL externalID in
  let out := SendFirebasePush W ctx0 deviceToken title body imageURL externalID s in
  (∀ err s2, getFCMClient W s1 = (Fail err, s2) → fst out = Some err) ∧
  (∀ cl s2, getFCMClient W s1 = (Ok cl, s2) →
     match messaging_Send W (history s2) cl ctx0 m with
     | Fail err => fst out = Some (PushNotificationDeliveryFailed err)
     | Ok _ => fst out = None
     end).
Proof.
  cbv zeta. rewrite SendFirebasePush_unfold. cbv zeta. split.
  - by intros err s2 ->.
  - intros cl s2 ->. simpl. unfold firebase_outcome.
    by destruct (messaging_Send W _ _ _ _).
Qed.

(** X2: a send returns [nil] exactly when its client was obtained and the
    vendor accepted: for APNs a response with status 200, for FCM an answer
    without error. *)
Theorem sends_succeed_iff ctx0 deviceToken title body imageURL externalID s :
  let n := apple_notification (apnsCreds (pc s)) deviceToken title body imageURL externalID in
  let m := firebase_message deviceToken title body imageURL externalID in
  (fst (SendApplePush W ctx0 deviceToken title body imageURL externalID s) = None ↔
   ∃ cl s2 response,
     getAPNSClient W
       (log (EvCall (CallSendApplePush ctx0 deviceToken title body imageURL externalID)) s)
       = (Ok cl, s2) ∧
     apns2_PushWithContext W (history s2) cl ctx0 n = Ok response ∧
     apns2.StatusCode response = 200%Z) ∧
  (fst (SendFirebasePush W ctx0 deviceToken title body imageURL externalID s) = None ↔
   ∃ cl s2 messageID,
     getFCMClient W
       (log (EvCall (CallSendFirebasePush ctx0 deviceToken title body imageURL externalID)) s)
       = (Ok cl, s2) ∧
     messaging_Send W (history s2) cl ctx0 m = Ok messageID).
Proof.
  cbv zeta. split.
  - rewrite SendApplePush_unfold. cbv zeta.
    destruct (getAPNSClient W _) as [[cl|e] s2]; simpl.
    + unfold apple_outcome, apns2.Sent, apns2.StatusSent.
      destruct (apns2_PushWithContext W _ _ _ _) as [resp|err] eqn:Hp; simpl.
      * destruct (Z.eqb_spec (apns2.StatusCode resp) 200) as [Heq|Hne]; simpl.
        -- split; [|done]. intros _. by exists cl, s2, resp.
        -- split; [done|]. intros (cl' & s2' & resp' & [= <- <-] & Hp' & Hs).
           rewrite Hp in Hp'. by injection Hp' as <-.
      * split; [done|]. intros (cl' & s2' & resp' & [= <- <-] & Hp' & Hs).
        by rewrite Hp in Hp'.
    + split; [done|]. by intros (cl' & s2' & resp' & [=] & _).
  - rewrite SendFirebasePush_unfold. cbv zeta.
    destruct (getFCMClient W _) as [[cl|e] s2]; simpl.
    + unfold firebase_outcome.
      destruct (messaging_Send W _ _ _ _) as [mid|err] eqn:Hp; simpl.
      * split; [|done]. intros _. by exists cl, s2, mid.
      * split; [done|]. intros (cl' & s2' & mid' & [= <- <-] & Hp').
        by rewrite Hp in Hp'.
    + split; [done|]. by intros (cl' & s2' & mid' & [=] & _).
Qed.

(** X3: in every send the vendor send call gets the caller's context, while
    the FCM construction calls get the context stored in the client. *)
Theorem contexts_used ctx0 deviceToken title body imageURL externalID s :
  let sA := snd (SendApplePush W ctx0 deviceToken title body imageURL externalID s) in
  let sF := snd (SendFirebasePush W ctx0 deviceToken title body imageURL externalID s) in
  ∃ newA newF,
    history sA = history s ++ newA ∧
    history sF = history s ++ newF ∧
    Forall (λ c, c = ctx0) (send_ctxs newA) ∧
    Forall (λ c, c = ctx0) (send_ctxs newF) ∧
    Forall (λ c, c = ctx (pc s)) (fcm_construction_ctxs newF).
Proof.
  cbv zeta. rewrite SendApplePush_cases, SendFirebasePush_cases. cbv zeta.
  assert (∀ (P : Context → Prop), Forall P []) as Hnil by (intros; constructor).
  assert (∀ (P : Context → Prop) c, P c → Forall P [c]) as Hone
    by (intros; by repeat constructor).
  assert (∀ (P : Context → Prop) c d, P c → P d → Forall P [c; d]) as Htwo
    by (intros; by repeat constructor).
  destruct (apnsClient (pc s)) as [clA|];
    [|destruct (token_AuthKeyFromFile W _ _) as [authKey|errA]];
    (destruct (fcmClient (pc s)) as [clF|];
     [|destruct (firebase_NewApp W _ _ _ _) as [errF|];
       [|destruct (app_Messaging W _ _ _) as [errM|]]]);
    simpl; rewrite <- ?app_assoc; simpl;
    (eexists _, _; split; [reflexivity|]; split; [reflexivity|]);
    unfold send_ctxs, fcm_construction_ctxs; simpl; auto.
Qed.

(** *** The request handler, continued *)

(** X4: the handler returns the success literal exactly when it returns no
    error and the empty string otherwise; an error of the selected send comes
    back as it is. *)
Theorem RpcSendNotification_result_shape ctx0 logger db nk payload s :
  let out := RpcSendNotification W ctx0 logger db nk payload s in
  match snd (fst out) with
  | None => fst (fst out) = responseJSON
  | Some _ => fst (fst out) = ""
  end ∧
  ∀ req err,
    json_Unmarshal W payload = Ok req →
    fst ((if IsIOS req then SendApplePush W else SendFirebasePush W)
           ctx0 (DeviceToken req) (Title req) (Body req) (ImageURL req)
           (ExternalID req) s) = Some err →
    fst out = ("", Some err).
Proof.
  cbv zeta. split.
  - unfold RpcSendNotification. unfold_M.
    destruct (json_Unmarshal W payload) as [req|perr]; simpl; [|done].
    destruct (IsIOS req); simpl.
    + by destruct (SendApplePush W _ _ _ _ _ _ s) as [[e|] s1].
    + by destruct (SendFirebasePush W _ _ _ _ _ _ s) as [[e|] s1].
  - intros req err Hreq Hsend. unfold RpcSendNotification. rewrite Hreq. unfold_M.
    destruct (IsIOS req); simpl in *.
    + destruct (SendApplePush W _ _ _ _ _ _ s) as [[e|] s1]; simpl in *; congruence.
    + destruct (SendFirebasePush W _ _ _ _ _ _ s) as [[e|] s1]; simpl in *; congruence.
Qed.

(** X5: for payloads that decode, the handler depends on the request only
    through the device token, title, body, image URL, external id and
    platform flag (not the user id), does not depend on the logger, database
    handle or module handle, and neither queries the store nor logs. *)
Theorem RpcSendNotification_uses_only_send_fields
    ctx0 logger logger' db db' nk nk' payload payload' req req' s :
  json_Unmarshal W payload = Ok req →
  json_Unmarshal W payload' = Ok req' →
  DeviceToken req = DeviceToken req' →
  Title req = Title req' →
  Body req = Body req' →
  ImageURL req = ImageURL req' →
  ExternalID req = ExternalID req' →
  IsIOS req = IsIOS req' →
  let out := RpcSendNotification W ctx0 logger db nk payload s in
  out = RpcSendNotification W ctx0 logger' db' nk' payload' s ∧
  queries_of (history (snd out)) = queries_of (history s) ∧
  closes_of (history (snd out)) = closes_of (history s) ∧
  debug_logs (history (snd out)) = debug_logs (history s).
Proof.
  intros Hp Hp' Hd Ht Hb Hi He Hf. cbv zeta.
  unfold RpcSendNotification. rewrite Hp, Hp', <- Hd, <- Ht, <- Hb, <- Hi, <- He, <- Hf.
  split; [done|]. unfold_M.
  destruct (IsIOS req); simpl.
  - destruct (SendApplePush_frame ctx0 (DeviceToken req) (Title req) (Body req)
                (ImageURL req) (ExternalID req) s) as (H1 & H2 & H3 & _).
    by destruct (SendApplePush W _ _ _ _ _ _ s) as [[e|] s1].
  - destruct (SendFirebasePush_frame ctx0 (DeviceToken req) (Title req) (Body req)
                (ImageURL req) (ExternalID req) s) as (H1 & H2 & H3 & _).
    by destruct (SendFirebasePush W _ _ _ _ _ _ s) as [[e|] s1].
Qed.

(** *** [SendUserPush] and the store *)

Lemma rows_loop_frame ctx0 title body imageURL externalID rows s :
  let s' := snd (rows_loop W ctx0 title body imageURL externalID rows s) in
  queries_of (history s') = queries_of (history s) ∧
  closes_of (history s') = closes_of (history s) ∧
  debug_logs (history s') = debug_logs (history s).
Proof.
  apply (rows_loop_lift
           (λ s s', queries_of (history s') = queries_of (history s) ∧
                    closes_of (history s') = closes_of (history s) ∧
                    debug_logs (history s') = debug_logs (history s))).
  - done.
  - intros s1 s2 s3 (H1 & H2 & H3) (H4 & H5 & H6). repeat split; congruence.
  - intros c d t b i e s0.
    by destruct (SendApplePush_frame c d t b i e s0) as (? & ? & ? & _).
  - intros c d t b i e s0.
    by destruct (SendFirebasePush_frame c d t b i e s0) as (? & ? & ? & _).
Qed.

(** The loop over rows of which a first part scans: it is a fan-out over the
    plan of that part, followed, if nothing failed, by the loop over the
    rest. *)
Lemma rows_loop_prefix ctx0 title body imageURL externalID pre tl s :
  ∃ made r s1,
    fanout W s (fanout_plan ctx0 title body imageURL externalID pre) r s1 made ∧
    rows_loop W ctx0 title body imageURL externalID (map Ok pre ++ tl) s =
    match r with
    | Some e => (Some e, s1)
    | None => rows_loop W ctx0 title body imageURL externalID tl s1
    end.
Proof.
  revert s. induction pre as [|row rest IH]; intros s; simpl.
  { exists [], None, s. split; [constructor|done]. }
  unfold fanout_plan. simpl. fold (fanout_plan ctx0 title body imageURL externalID rest).
  unfold row_calls. unfold_M.
  destruct (token_present (sql.push_token_android row));
    destruct (token_present (sql.push_token_ios row)); simpl.
  - destruct (SendFirebasePush W _ _ _ _ _ _ s) as [[e1|] s1] eqn:H1; simpl.
    { eexists _, (Some e1), s1. split; [by apply fanout_abort|done]. }
    destruct (SendApplePush W _ _ _ _ _ _ s1) as [[e2|] s2] eqn:H2; simpl.
    { eexists _, (Some e2), s2.
      split; [eapply fanout_next; [done|]; by apply fanout_abort|done]. }
    destruct (IH s2) as (made & r & s3 & Hm & Heq).
    eexists _, r, s3. split; [|exact Heq].
    eapply fanout_next; [done|]. eapply fanout_next; [done|]. exact Hm.
  - destruct (SendFirebasePush W _ _ _ _ _ _ s) as [[e1|] s1] eqn:H1; simpl.
    { eexists _, (Some e1), s1. split; [by apply fanout_abort|done]. }
    destruct (IH s1) as (made & r & s3 & Hm & Heq).
    eexists _, r, s3. split; [|exact Heq].
    eapply fanout_next; [done|]. exact Hm.
  - destruct (SendApplePush W _ _ _ _ _ _ s) as [[e2|] s2] eqn:H2; simpl.
    { eexists _, (Some e2), s2. split; [by apply fanout_abort|done]. }
    destruct (IH s2) as (made & r & s3 & Hm & Heq).
    eexists _, r, s3. split; [|exact Heq].
    eapply fanout_next; [done|]. exact Hm.
  - apply IH.
Qed.

(** X6: when the query fails, [SendUserPush] does nothing more: it returns a
    fresh "user not found" error if the failure is [sql.ErrNoRows] (also
    behind [Unwrap]) and the failure itself otherwise, enters no provider
    send and does not close any rows. *)
Theorem SendUserPush_query_failure ctx0 logger db userID title body imageURL externalID err s :
  sql_QueryContext W (history s) db ctx0 query userID = Fail err →
  let out := SendUserPush W ctx0 logger db userID title body imageURL externalID s in
  fst out = Some (if errors_Is_ErrNoRows err then errors_New "user not found" else err) ∧
  snd out = log (EvQueryContext db ctx0 query userID (Fail err)) s ∧
  calls_of (history (snd out)) = calls_of (history s) ∧
  closes_of (history (snd out)) = closes_of (history s).
Proof.
  intros Hq. unfold SendUserPush, call_QueryContext. unfold_M. rewrite Hq.
  destruct (errors_Is_ErrNoRows err); simpl; repeat split; by (read_more; read_history).
Qed.

(** X7: when a row fails to scan, the sends planned for the rows before it
    have been made (or stopped at their first error, which is then the
    result); if none of them failed the result is the scan error itself; the
    rows after it are never looked at, and the rows are closed. *)
Theorem SendUserPush_scan_error
    ctx0 logger db userID title body imageURL externalID pre err rest s :
  sql_QueryContext W (history s) db ctx0 query userID =
    Ok (map Ok pre ++ Fail err :: rest) →
  let plan := fanout_plan ctx0 title body imageURL externalID pre in
  let out := SendUserPush W ctx0 logger db userID title body imageURL externalID s in
  ∃ made r s1,
    fanout W (log (EvQueryContext db ctx0 query userID
                     (Ok (map Ok pre ++ Fail err :: rest))) s) plan r s1 made ∧
    snd out = log EvRowsClose s1 ∧
    calls_of (history (snd out)) = calls_of (history s) ++ made ∧
    made `prefix_of` plan ∧
    fst out = match r with Some e => Some e | None => Some err end.
Proof.
  intros Hq. cbv zeta. unfold SendUserPush, call_QueryContext. unfold_M. rewrite Hq.
  fold (log (EvQueryContext db ctx0 query userID (Ok (map Ok pre ++ Fail err :: rest))) s).
  set (s0 := log _ s).
  destruct (rows_loop_prefix ctx0 title body imageURL externalID pre (Fail err :: rest) s0)
    as (made & r & s1 & Hm & Heq).
  rewrite Heq. destruct (fanout_made _ _ _ _ _ Hm) as (H1 & H2 & _).
  exists made, r, s1. split; [done|].
  assert (calls_of (history (log EvRowsClose s1)) = calls_of (history s) ++ made) as Hc.
  { unfold calls_of in *. simpl. rewrite omap_app, H1. subst s0. simpl.
    by rewrite omap_app, !app_nil_r. }
  destruct r as [e|]; simpl; by fold (log EvRowsClose s1).
Qed.

(** X8: [SendUserPush] sends the store exactly one query: the fixed SELECT
    text with the user id as its argument, on the given handle and context;
    it closes the rows once if the query succeeded and never otherwise, and
    it logs nothing. *)
Theorem SendUserPush_store_access ctx0 logger db userID title body imageURL externalID s :
  let out := SendUserPush W ctx0 logger db userID title body imageURL externalID s in
  queries_of (history (snd out)) = queries_of (history s) ++ [(db, ctx0, query, userID)] ∧
  closes_of (history (snd out)) =
    closes_of (history s) ++
    match sql_QueryContext W (history s) db ctx0 query userID with
    | Ok _ => [()]
    | Fail _ => []
    end ∧
  debug_logs (history (snd out)) = debug_logs (history s).
Proof.
  cbv zeta. unfold SendUserPush, call_QueryContext. unfold_M.
  destruct (sql_QueryContext W (history s) db ctx0 query userID) as [rows|err].
  - match goal with |- context [rows_loop W ?a ?b ?c ?d ?e ?f ?st] =>
      destruct (rows_loop_frame a b c d e f st) as (H1 & H2 & H3);
      destruct (rows_loop W a b c d e f st) as [r s1] end.
    simpl in *. read_more. by rewrite H1, H2, H3.
  - destruct (errors_Is_ErrNoRows err); simpl; by read_more.
Qed.

(** X9: a token column counts only when it is not NULL and not the empty
    string; for a user whose rows all lack such tokens, [SendUserPush] makes
    the query, closes the rows, and returns [nil] without entering a send. *)
Theorem SendUserPush_rows_without_tokens
    ctx0 logger db userID title body imageURL externalID rows s :
  sql_QueryContext W (history s) db ctx0 query userID = Ok (map Ok rows) →
  Forall (λ row,
            (sql.Valid (sql.push_token_android row) = false ∨
             sql.String_ (sql.push_token_android row) = "") ∧
            (sql.Valid (sql.push_token_ios row) = false ∨
             sql.String_ (sql.push_token_ios row) = "")) rows →
  SendUserPush W ctx0 logger db userID title body imageURL externalID s =
  (None, log EvRowsClose (log (EvQueryContext db ctx0 query userID (Ok (map Ok rows))) s)).
Proof.
  intros Hq Hrows. unfold SendUserPush, call_QueryContext. unfold_M. rewrite Hq.
  fold (log (EvQueryContext db ctx0 query userID (Ok (map Ok rows))) s).
  set (s0 := log _ s). clearbody s0. clear Hq.
  assert (rows_loop W ctx0 title body imageURL externalID (map Ok rows) s0 = (None, s0))
    as ->; [|done].
  induction Hrows as [|row rest [Ha Hi] _ IH]; simpl; [done|].
  assert (∀ t, sql.Valid t = false ∨ sql.String_ t = "" → token_present t = false)
    as Habsent.
  { intros t [Hv| Hs]; unfold token_present; rewrite ?Hv, ?Hs; simpl; [done|].
    by destruct (sql.Valid t). }
  rewrite (Habsent _ Ha), (Habsent _ Hi). unfold_M. exact IH.
Qed.

(** *** From a call to what the vendor receives *)

Lemma planned_messages_cons c plan :
  planned_messages (c :: plan) = planned_messages [c] ++ planned_messages plan.
Proof. by destruct c. Qed.

Lemma planned_notifications_cons creds c plan :
  planned_notifications creds (c :: plan) =
  planned_notifications creds [c] ++ planned_notifications creds plan.
Proof. by destruct c. Qed.

(** One call hands the vendor its own message or nothing, and its own
    message when it returns [nil]. *)
Lemma do_call_submitted c s :
  let out := do_call W c s in
  ∃ fm an,
    fcm_submitted (history (snd out)) = fcm_submitted (history s) ++ fm ∧
    apns_submitted (history (snd out)) = apns_submitted (history s) ++ an ∧
    fm `prefix_of` planned_messages [c] ∧
    an `prefix_of` planned_notifications (apnsCreds (pc s)) [c] ∧
    (fst out = None →
     fm = planned_messages [c] ∧ an = planned_notifications (apnsCreds (pc s)) [c]) ∧
    apnsCreds (pc (snd out)) = apnsCreds (pc s).
Proof.
  destruct c as [c0 d t b i e|c0 d t b i e]; cbv zeta; simpl.
  - destruct (SendFirebasePush_frame c0 d t b i e s) as (_ & _ & _ & _ & Ha & _).
    pose proof (grows_apnsCreds _ _ (SendFirebasePush_grows c0 d t b i e s)) as Hcr.
    revert Ha Hcr. rewrite SendFirebasePush_unfold. cbv zeta.
    destruct (getFCMClient_quiet (log (EvCall (CallSendFirebasePush c0 d t b i e)) s))
      as [Hq _].
    destruct (getFCMClient W _) as [[cl|err] s2]; simpl in *; intros Ha Hcr.
    + exists [firebase_message d t b i e], []. rewrite Ha, app_nil_r.
      split_and!; try done.
      unfold fcm_submitted in *. rewrite omap_app, Hq. simpl.
      by rewrite omap_app, app_nil_r.
    + exists [], []. rewrite Ha, !app_nil_r. split_and!; try done.
      * rewrite Hq. by read_history.
      * apply prefix_nil.
  - destruct (SendApplePush_frame c0 d t b i e s) as (_ & _ & _ & _ & Hf & _).
    pose proof (grows_apnsCreds _ _ (SendApplePush_grows c0 d t b i e s)) as Hcr.
    revert Hf Hcr. rewrite SendApplePush_unfold. cbv zeta.
    destruct (getAPNSClient_quiet (log (EvCall (CallSendApplePush c0 d t b i e)) s))
      as [Hq _].
    destruct (getAPNSClient W _) as [[cl|err] s2]; simpl in *; intros Hf Hcr.
    + exists [], [apple_notification (apnsCreds (pc s)) d t b i e].
      rewrite Hf, app_nil_r. split_and!; try done.
      unfold apns_submitted in *. rewrite omap_app, Hq. simpl.
      by rewrite omap_app, app_nil_r.
    + exists [], []. rewrite Hf, !app_nil_r. split_and!; try done.
      * rewrite Hq. by read_history.
      * apply prefix_nil.
Qed.

Lemma fanout_submitted plan s r s' made :
  fanout W s plan r s' made →
  ∃ fm an,
    fcm_submitted (history s') = fcm_submitted (history s) ++ fm ∧
    apns_submitted (history s') = apns_submitted (history s) ++ an ∧
    fm `prefix_of` planned_messages plan ∧
    an `prefix_of` planned_notifications (apnsCreds (pc s)) plan ∧
    (r = None →
     fm = planned_messages plan ∧ an = planned_notifications (apnsCreds (pc s)) plan) ∧
    apnsCreds (pc s') = apnsCreds (pc s).
Proof.
  induction 1 as [s|s c plan s1 r s2 made Hc _ IH|s c plan err s1 Hc].
  - exists [], []. rewrite !app_nil_r. split_and!; try done; apply prefix_nil.
  - destruct (do_call_submitted c s) as (fm1 & an1 & F1 & A1 & _ & _ & Hall & Hcr).
    rewrite Hc in F1, A1, Hall, Hcr. cbn [fst snd] in *. destruct (Hall eq_refl) as [-> ->].
    destruct IH as (fm2 & an2 & F2 & A2 & PF & PA & Hall2 & Hcr2).
    rewrite Hcr in PA, Hall2.
    exists (planned_messages [c] ++ fm2),
      (planned_notifications (apnsCreds (pc s)) [c] ++ an2).
    rewrite (planned_messages_cons c plan), (planned_notifications_cons _ c plan).
    split_and!.
    + by rewrite F2, F1, app_assoc.
    + by rewrite A2, A1, app_assoc.
    + by apply prefix_app.
    + by apply prefix_app.
    + intros Hr. by destruct (Hall2 Hr) as [-> ->].
    + congruence.
  - destruct (do_call_submitted c s) as (fm1 & an1 & F1 & A1 & PF & PA & _ & Hcr).
    rewrite Hc in F1, A1, Hcr. cbn [fst snd] in *.
    exists fm1, an1.
    rewrite (planned_messages_cons c plan), (planned_notifications_cons _ c plan).
    split_and!; try done.
    + by apply prefix_app_r.
    + by apply prefix_app_r.
Qed.

(** X10: what the vendors receive from [SendUserPush] is, in order, a prefix
    of the messages of the plan (for FCM) and of its notifications (for
    APNs), each carrying its row's token and the given title, body, image URL
    and external id; when [SendUserPush] returns [nil] the vendors received
    all of them, one per present token and none twice. *)
Theorem SendUserPush_delivers ctx0 logger db userID title body imageURL externalID rows s :
  sql_QueryContext W (history s) db ctx0 query userID = Ok (map Ok rows) →
  let plan := fanout_plan ctx0 title body imageURL externalID rows in
  let out := SendUserPush W ctx0 logger db userID title body imageURL externalID s in
  ∃ fm an,
    fcm_submitted (history (snd out)) = fcm_submitted (history s) ++ fm ∧
    apns_submitted (history (snd out)) = apns_submitted (history s) ++ an ∧
    fm `prefix_of` planned_messages plan ∧
    an `prefix_of` planned_notifications (apnsCreds (pc s)) plan ∧
    (fst out = None →
     fm = planned_messages plan ∧
     an = planned_notifications (apnsCreds (pc s)) plan).
Proof.
  intros Hq. cbv zeta. unfold SendUserPush, call_QueryContext. unfold_M. rewrite Hq.
  fold (log (EvQueryContext db ctx0 query userID (Ok (map Ok rows))) s).
  set (s0 := log _ s).
  destruct (rows_loop_fanout ctx0 title body imageURL externalID rows s0) as [made Hm].
  destruct (rows_loop W _ _ _ _ _ _ s0) as [r s1]. simpl in *.
  destruct (fanout_submitted _ _ _ _ _ Hm) as (fm & an & F & A & PF & PA & Hall & _).
  exists fm, an. subst s0. simpl in *.
  split_and!; try done.
  - unfold fcm_submitted in *. rewrite omap_app, F. simpl.
    by rewrite omap_app, !app_nil_r.
  - unfold apns_submitted in *. rewrite omap_app, A. simpl.
    by rewrite omap_app, !app_nil_r.
Qed.

(** X11: when the handler returns without error for a decoded request, the
    vendor of the request's platform received exactly one new submission,
    built from the request's device token, title, body, image URL and
    external id, and the other vendor received nothing. *)
Theorem RpcSendNotification_delivers ctx0 logger db nk payload req s :
  json_Unmarshal W payload = Ok req →
  let out := RpcSendNotification W ctx0 logger db nk payload s in
  snd (fst out) = None →
  if IsIOS req
  then
    apns_submitted (history (snd out)) =
      apns_submitted (history s) ++
      [apple_notification (apnsCreds (pc s)) (DeviceToken req) (Title req)
         (Body req) (ImageURL req) (ExternalID req)] ∧
    fcm_submitted (history (snd out)) = fcm_submitted (history s)
  else
    fcm_submitted (history (snd out)) =
      fcm_submitted (history s) ++
      [firebase_message (DeviceToken req) (Title req) (Body req) (ImageURL req)
         (ExternalID req)] ∧
    apns_submitted (history (snd out)) = apns_submitted (history s).
Proof.
  intros Hreq. cbv zeta. unfold RpcSendNotification. rewrite Hreq. unfold_M.
  destruct (IsIOS req); simpl.
  - destruct (do_call_submitted
                (CallSendApplePush ctx0 (DeviceToken req) (Title req) (Body req)
                   (ImageURL req) (ExternalID req)) s)
      as (fm & an & F & A & _ & _ & Hall & _). simpl in *.
    destruct (SendApplePush W _ _ _ _ _ _ s) as [[e|] s1]; simpl in *; [done|].
    intros _. destruct (Hall eq_refl) as [-> ->]. simpl in *.
    by rewrite app_nil_r in F.
  - destruct (do_call_submitted
                (CallSendFirebasePush ctx0 (DeviceToken req) (Title req) (Body req)
                   (ImageURL req) (ExternalID req)) s)
      as (fm & an & F & A & _ & _ & Hall & _). simpl in *.
    destruct (SendFirebasePush W _ _ _ _ _ _ s) as [[e|] s1]; simpl in *; [done|].
    intros _. destruct (Hall eq_refl) as [-> ->]. simpl in *.
    by rewrite app_nil_r in A.
Qed.

(** *** Handles and credentials over runs *)

Lemma built_from_creds_log e s : built_from_creds s → built_from_creds (log e s).
Proof.
  intros [Ha Hf]. split; simpl; [|done].
  intros cl Hcl. destruct (Ha cl Hcl) as (? & ? & Hin).
  split_and!; try done. apply elem_of_app. by left.
Qed.

Lemma SendApplePush_built_from_creds ctx0 deviceToken title body imageURL externalID s :
  built_from_creds s →
  built_from_creds (snd (SendApplePush W ctx0 deviceToken title body imageURL externalID s)).
Proof.
  intros [Ha Hf]. rewrite SendApplePush_cases.
  destruct (apnsClient (pc s)) as [cl|] eqn:Hc; simpl.
  - split; simpl; [|done]. rewrite Hc. intros cl' [= <-].
    destruct (Ha cl eq_refl) as (? & ? & Hin). split_and!; try done.
    rewrite !elem_of_app. by left; left.
  - destruct (token_AuthKeyFromFile W _ _) as [authKey|err]; simpl.
    + split; simpl; [|done]. intros cl' [= <-]. simpl. split_and!; try done.
      rewrite !elem_of_app, !elem_of_cons. left. right. by left.
    + split; simpl; [|done]. by rewrite Hc.
Qed.

Lemma SendFirebasePush_built_from_creds ctx0 deviceToken title body imageURL externalID s :
  built_from_creds s →
  built_from_creds (snd (SendFirebasePush W ctx0 deviceToken title body imageURL externalID s)).
Proof.
  intros [Ha Hf]. rewrite SendFirebasePush_cases.
  assert (∀ new,
            ∀ cl, apnsClient (pc s) = Some cl →
              token.KeyID (apns2.Token cl) = P8AuthKeyID (apnsCreds (pc s)) ∧
              token.TeamID (apns2.Token cl) = TeamID (apnsCreds (pc s)) ∧
              EvAuthKeyFromFile (P8AuthKeyFilePath (apnsCreds (pc s)))
                (Ok (token.AuthKey_ (apns2.Token cl))) ∈ history s ++ new) as Ha'.
  { intros new cl Hcl. destruct (Ha cl Hcl) as (? & ? & Hin). split_and!; try done.
    apply elem_of_app. by left. }
  destruct (fcmClient (pc s)) as [cl|] eqn:Hc; simpl.
  - split; simpl; [|by rewrite Hc]. rewrite <- app_assoc. apply Ha'.
  - destruct (firebase_NewApp W _ _ _ _) as [err|]; simpl.
    { split; simpl; [|by rewrite Hc]. rewrite <- app_assoc. apply Ha'. }
    destruct (app_Messaging W _ _ _) as [err|]; simpl.
    { split; simpl; [|by rewrite Hc]. rewrite <- !app_assoc. apply Ha'. }
    split; simpl; [rewrite <- !app_assoc; apply Ha'|].
    by intros cl' [= <-].
Qed.

Lemma run_built_from_creds ops s : built_from_creds s → built_from_creds (run W ops s).
Proof.
  apply (run_lift (λ s s', built_from_creds s → built_from_creds s')); eauto.
  - intros. by apply SendApplePush_built_from_creds.
  - intros. by apply SendFirebasePush_built_from_creds.
  - intros. by apply built_from_creds_log.
  - intros. by apply built_from_creds_log.
  - intros. by apply built_from_creds_log.
Qed.

(** X12: on a client made by [NewPushClient], after any operations, a cached
    APNs handle carries the credential's key id and team id, a key that
    [token.AuthKeyFromFile] returned for the credential's key file, and the
    host chosen from the credential's environment; a cached FCM handle
    belongs to an app made for the credential's project id and credentials
    file. *)
Theorem cached_handles_built_from_credentials ctx0 apnsCreds0 fcmCreds0 ops :
  let s := run W ops (boot (NewPushClient ctx0 apnsCreds0 fcmCreds0)) in
  (∀ cl, apnsClient (pc s) = Some cl →
     token.KeyID (apns2.Token cl) = P8AuthKeyID apnsCreds0 ∧
     token.TeamID (apns2.Token cl) = TeamID apnsCreds0 ∧
     EvAuthKeyFromFile (P8AuthKeyFilePath apnsCreds0)
       (Ok (token.AuthKey_ (apns2.Token cl))) ∈ history s ∧
     apns2.Host cl = chosen_host apnsCreds0) ∧
  (∀ cl, fcmClient (pc s) = Some cl →
     firebase.config (messaging.app cl) =
       {| firebase.ProjectID := ProjectID fcmCreds0 |} ∧
     firebase.opts (messaging.app cl) = CredentialsFilePath fcmCreds0).
Proof.
  cbv zeta. set (s0 := boot _). set (s := run W ops s0).
  assert (built_from_creds s) as [Ha Hf].
  { apply run_built_from_creds. by split. }
  assert (client_inv s) as Hinv by (by apply run_client_inv, client_inv_boot).
  destruct (run_grows ops s0) as [_ Hca Hcf _ _ _]. fold s in Hca, Hcf.
  simpl in Hca, Hcf. split.
  - intros cl Hcl. destruct (Ha cl Hcl) as (H1 & H2 & H3).
    pose proof (inv_apns_host s Hinv cl Hcl) as H4.
    rewrite Hca in *. done.
  - intros cl Hcl. destruct (Hf cl Hcl) as (H1 & H2). rewrite Hcf in *. done.
Qed.

(** X13: no operation changes the client's credentials or its stored
    context, and what was done before a run is still the beginning of what
    was done after it. *)
Theorem run_keeps_configuration ops s :
  let s' := run W ops s in
  apnsCreds (pc s') = apnsCreds (pc s) ∧
  fcmCreds (pc s') = fcmCreds (pc s) ∧
  ctx (pc s') = ctx (pc s) ∧
  history s `prefix_of` history s'.
Proof.
  cbv zeta. destruct (run_grows ops s) as [[new Hnew] H1 H2 H3 _ _].
  split_and!; try done. by exists new.
Qed.

(** X14: a client made from a configuration map starts with both handles
    [nil]; its first Apple send begins by loading the key from the path under
    [APNS_P8_AUTH_KEY_FILE_PATH] and its first Firebase send by creating an
    app for the project under [FCM_PROJECT_ID] with the file under
    [FCM_CREDENTIALS_FILE_PATH], with the empty string for a missing key; the
    notification topic is the value under [APNS_TOPIC]; and the development
    host is chosen exactly when [APNS_ENVIRONMENT] is present and is
    ["development"]. *)
Theorem first_sends_use_configuration ctx0 env ctx1 deviceToken title body imageURL externalID :
  let s := boot (NewPushClientFromEnv ctx0 env) in
  let outA := SendApplePush W ctx1 deviceToken title body imageURL externalID s in
  let outF := SendFirebasePush W ctx1 deviceToken title body imageURL externalID s in
  (apnsClient (pc s) = None ∧ fcmClient (pc s) = None) ∧
  (∃ r rest,
     history (snd outA) =
       EvCall (CallSendApplePush ctx1 deviceToken title body imageURL externalID) ::
       EvAuthKeyFromFile (default "" (env !! "APNS_P8_AUTH_KEY_FILE_PATH")) r :: rest) ∧
  (∃ r rest,
     history (snd outF) =
       EvCall (CallSendFirebasePush ctx1 deviceToken title body imageURL externalID) ::
       EvNewApp ctx0 {| firebase.ProjectID := default "" (env !! "FCM_PROJECT_ID") |}
         (default "" (env !! "FCM_CREDENTIALS_FILE_PATH")) r :: rest) ∧
  apns2.Topic (apple_notification (apnsCreds (pc s)) deviceToken title body
                 imageURL externalID) = default "" (env !! "APNS_TOPIC") ∧
  (chosen_host (apnsCreds (pc s)) = apns2.HostDevelopment ↔
   env !! "APNS_ENVIRONMENT" = Some "development").
Proof.
  cbv zeta. split; [done|]. split; [|split; [|split; [done|]]].
  - rewrite SendApplePush_cases. simpl.
    destruct (token_AuthKeyFromFile W _ _) as [authKey|err]; simpl; by eexists _, _.
  - rewrite SendFirebasePush_cases. simpl.
    destruct (firebase_NewApp W _ _ _ _) as [err|]; simpl; [by eexists _, _|].
    destruct (app_Messaging W _ _ _) as [err|]; simpl; by eexists _, _.
  - unfold chosen_host. simpl. unfold map_index.
    destruct (env !! "APNS_ENVIRONMENT") as [v|]; simpl.
    + destruct (String.eqb_spec v "development") as [->|Hne]; split; try done.
      by intros [= ->].
    + split; done.
Qed.

End Properties.

(** The example of the specification: the iOS payload goes to the Apple path
    with its own fields and the handler answers with the success literal; a
    payload whose flag is false goes to the Firebase path. *)
Lemma RpcSendNotification_dispatch_witness :
  (let out := RpcSendNotification W_ok req_ctx logger0 db0 nk0 example_payload s_boot in
   let sent := SendApplePush W_ok req_ctx "tok-ios" "Hi" "there" "" "x1" s_boot in
   snd out = snd sent ∧
   (∃ new, history (snd out) = history s_boot ++ new ∧
           calls_of new = [CallSendApplePush req_ctx "tok-ios" "Hi" "there" "" "x1"]) ∧
   (fst sent = None → fst out = (responseJSON, None))) ∧
  (let out := RpcSendNotification W_ok req_ctx logger0 db0 nk0 "android" s_boot in
   let sent :=
     SendFirebasePush W_ok req_ctx "tok-android" "Hi" "there" "https://img" "x2" s_boot in
   snd out = snd sent ∧
   (∃ new, history (snd out) = history s_boot ++ new ∧
           calls_of new =
             [CallSendFirebasePush req_ctx "tok-android" "Hi" "there" "https://img" "x2"]) ∧
   (fst sent = None → fst out = (responseJSON, None))).
Proof.
  split.
  - exact (RpcSendNotification_dispatch W_ok req_ctx logger0 db0 nk0
             example_payload example_request s_boot eq_refl).
  - exact (RpcSendNotification_dispatch W_ok req_ctx logger0 db0 nk0
             "android" android_request s_boot eq_refl).
Defined.

Lemma RpcSendNotification_bad_input_witness :
  let out := RpcSendNotification W_ok req_ctx logger0 db0 nk0 "{" s_boot in
  fst out = ("", Some hiro_ErrBadInput) ∧
  snd out = log (EvDebug logger0 "json.Unmarshal error: %v"
                   (foreign_error "invalid character")) s_boot ∧
  calls_of (history (snd out)) = calls_of (history s_boot) ∧
  apns_submitted (history (snd out)) = apns_submitted (history s_boot) ∧
  fcm_submitted (history (snd out)) = fcm_submitted (history s_boot) ∧
  pc (snd out) = pc s_boot.
Proof.
  exact (RpcSendNotification_bad_input W_ok req_ctx logger0 db0 nk0 "{"
           (foreign_error "invalid character") s_boot eq_refl).
Defined.

(** A user with both tokens on one row: one Firebase send, then one Apple
    send; and the plans of the two sample rows. *)
Lemma SendUserPush_fanout_witness :
  let out := SendUserPush W_ok req_ctx logger0 db0 "u-both" "Hi" "there" "" "x1" s_boot in
  (fst out = None ∧
   calls_of (history (snd out)) =
     [CallSendFirebasePush req_ctx "tok-a2" "Hi" "there" "" "x1";
      CallSendApplePush req_ctx "tok-i2" "Hi" "there" "" "x1"]) ∧
  row_calls req_ctx "Hi" "there" "" "x1" android_only_row =
    [CallSendFirebasePush req_ctx "tok-android" "Hi" "there" "" "x1"] ∧
  row_calls req_ctx "Hi" "there" "" "x1" both_tokens_row =
    [CallSendFirebasePush req_ctx "tok-a2" "Hi" "there" "" "x1";
     CallSendApplePush req_ctx "tok-i2" "Hi" "there" "" "x1"].
Proof.
  destruct (SendUserPush_fanout W_ok req_ctx logger0 db0 "u-both" "Hi" "there" "" "x1"
              [both_tokens_row] s_boot eq_refl)
    as ((s1 & made & _ & _ & Hc & _ & Hall) & Hone & Hboth).
  split; [split; [reflexivity|]|split].
  - rewrite Hc, (Hall eq_refl). reflexivity.
  - exact (Hone android_only_row eq_refl eq_refl).
  - exact (Hboth both_tokens_row eq_refl eq_refl).
Defined.

(** A user id with no row in the device table. *)
Lemma SendUserPush_empty_row_set_witness :
  let out := SendUserPush W_ok req_ctx logger0 db0 "u-nobody" "Hi" "there" "" "x1" s_boot in
  fst out = None ∧
  fst out ≠ Some (errors_New "user not found") ∧
  calls_of (history (snd out)) = calls_of (history s_boot) ∧
  snd out = log EvRowsClose
              (log (EvQueryContext db0 req_ctx query "u-nobody" (Ok [])) s_boot).
Proof.
  exact (SendUserPush_empty_row_set W_ok req_ctx logger0 db0 "u-nobody"
           "Hi" "there" "" "x1" s_boot eq_refl).
Defined.

(** A key that the sample configuration does not define. *)
Lemma credentials_from_env_lookup_witness :
  "" = default "" (sample_env !! "APNS_TEAM_ID") ∧
  (sample_env !! "APNS_TEAM_ID" = None → "" = "") ∧
  (∀ x, sample_env !! "APNS_TEAM_ID" = Some x → "" = x).
Proof.
  apply (credentials_from_env_lookup sample_env "APNS_TEAM_ID" "").
  vm_compute. apply list_elem_of_further, list_elem_of_here.
Defined.

(** No key file and no service-account file: both sends return the
    construction error itself. *)
Lemma lazy_construction_failure_witness :
  fst (SendApplePush W_unconfigured req_ctx "tok-ios" "Hi" "there" "" "x1" s_boot) =
    Some (foreign_error "open : no such file or directory") ∧
  fst (SendFirebasePush W_unconfigured req_ctx "tok-ios" "Hi" "there" "" "x1" s_boot) =
    Some (foreign_error "cannot read credentials file").
Proof.
  destruct (lazy_construction_failure W_unconfigured req_ctx "tok-ios" "Hi" "there" "" "x1"
              s_boot) as [Ha Hf].
  split.
  - exact (proj1 (Ha (foreign_error "open : no such file or directory") eq_refl)).
  - exact (proj1 (Hf (foreign_error "cannot read credentials file") eq_refl)).
Defined.

(** A push that APNs answers with a rejection, and a send whose key file
    cannot be read. *)
Lemma SendApplePush_failure_shapes_witness :
  fst (SendApplePush W_rejected req_ctx "tok-ios" "Hi" "there" "" "x1" s_boot) =
    Some (PushNotificationDeliveryFailed (errors_New "BadDeviceToken")) ∧
  fst (SendApplePush W_unconfigured req_ctx "tok-ios" "Hi" "there" "" "x1" s_boot) =
    Some (foreign_error "open : no such file or directory").
Proof.
  split.
  - destruct (SendApplePush_failure_shapes W_rejected req_ctx "tok-ios" "Hi" "there" "" "x1"
                s_boot) as [_ H].
    exact (proj1 (H _ _ eq_refl)).
  - destruct (SendApplePush_failure_shapes W_unconfigured req_ctx "tok-ios" "Hi" "there" "" "x1"
                s_boot) as [H _].
    exact (H _ _ eq_refl).
Defined.

(** The transport error of the vendor push call does not come back as it is:
    it comes back wrapped, with the same kind as a provider rejection. *)
Lemma SendApplePush_transport_error_wrapped :
  let transport := foreign_error "connection reset" in
  let s1 := log (EvCall (CallSendApplePush req_ctx "tok-ios" "Hi" "there" "" "x1")) s_boot in
  let out := SendApplePush W_transport req_ctx "tok-ios" "Hi" "there" "" "x1" s_boot in
  let rejected := SendApplePush W_rejected req_ctx "tok-ios" "Hi" "there" "" "x1" s_boot in
  match getAPNSClient W_transport s1 with
  | (Ok cl, s2) =>
      apns2_PushWithContext W_transport (history s2) cl req_ctx
        (apple_notification (apnsCreds (pc s_boot)) "tok-ios" "Hi" "there" "" "x1") =
      Fail transport
  | (Fail _, _) => False
  end ∧
  fst out = Some (PushNotificationDeliveryFailed transport) ∧
  fst out ≠ Some transport ∧
  (is_delivery_failed <$> fst out) = (is_delivery_failed <$> fst rejected).
Proof.
  cbv zeta. split; [|split; [|split]].
  - vm_compute. reflexivity.
  - vm_compute. reflexivity.
  - vm_compute. discriminate.
  - vm_compute. reflexivity.
Defined.

(** Two Apple sends and one Firebase send on a fresh client: one client per
    provider, kept by a further send of each kind. *)
Lemma clients_constructed_at_most_once_witness :
  let ops := [OpSendApplePush req_ctx "tok-ios" "Hi" "there" "" "x1";
              OpSendFirebasePush req_ctx "tok-android" "Hi" "there" "" "x1";
              OpSendApplePush req_ctx "tok-ios" "Again" "there" "" "x2"] in
  let more := [OpSendApplePush req_ctx "tok-ios" "Hi" "there" "" "x3";
               OpSendFirebasePush req_ctx "tok-android" "Hi" "there" "" "x3"] in
  let s := run W_ok ops s_boot in
  length (apns_built (history s)) ≤ 1 ∧
  length (fcm_built (history s)) ≤ 1 ∧
  apns_built (history (run W_ok more s)) = apns_built (history s) ∧
  fcm_built (history (run W_ok more s)) = fcm_built (history s).
Proof.
  cbv zeta.
  destruct (clients_constructed_at_most_once W_ok bg_ctx
              (NewAPNSCredentialsFromEnv sample_env) (NewFCMCredentialsFromEnv sample_env)
              [OpSendApplePush req_ctx "tok-ios" "Hi" "there" "" "x1";
               OpSendFirebasePush req_ctx "tok-android" "Hi" "there" "" "x1";
               OpSendApplePush req_ctx "tok-ios" "Again" "there" "" "x2"]
              [OpSendApplePush req_ctx "tok-ios" "Hi" "there" "" "x3";
               OpSendFirebasePush req_ctx "tok-android" "Hi" "there" "" "x3"])
    as (_ & _ & Hlen & Hlenf & Ha & Hf).
  split; [exact Hlen|]. split; [exact Hlenf|]. split.
  - exact (proj1 (proj2 (Ha _ eq_refl))).
  - exact (proj1 (proj2 (Hf _ eq_refl))).
Defined.

(** The sample configuration selects development: the first send builds a
    development client, the second reuses it, and the pushes of a run go to
    the development host. *)
Lemma apns_environment_chosen_once_witness :
  chosen_host (NewAPNSCredentialsFromEnv sample_env) = apns2.HostDevelopment ∧
  chosen_host (NewAPNSCredentialsFromEnv ∅) = apns2.HostProduction ∧
  (∃ cl s2,
     getAPNSClient W_ok s_boot = (Ok cl, s2) ∧
     apns2.Host cl = apns2.HostDevelopment ∧
     getAPNSClient W_ok s2 = (Ok cl, s2)) ∧
  Forall (λ cl, apns2.Host cl = apns2.HostDevelopment)
    (apns_used (history (run W_ok
       [OpSendApplePush req_ctx "tok-ios" "Hi" "there" "" "x1";
        OpSendApplePush req_ctx "tok-ios" "Again" "there" "" "x2"] s_boot))).
Proof.
  destruct (apns_environment_chosen_once W_ok) as (Hc & Hfirst & Hlater & Hrun).
  assert (chosen_host (NewAPNSCredentialsFromEnv sample_env) = apns2.HostDevelopment)
    as Hdev by (apply Hc; vm_compute; reflexivity).
  split; [exact Hdev|]. split; [|split].
  - apply Hc. vm_compute. discriminate.
  - destruct (getAPNSClient W_ok s_boot) as [[cl|err] s2] eqn:Hget;
      [|vm_compute in Hget; discriminate].
    destruct (Hfirst s_boot cl s2 eq_refl Hget) as [Hhost Hcached].
    exists cl, s2. split; [reflexivity|]. split.
    + rewrite Hhost. exact Hdev.
    + exact (proj1 (Hlater s2 cl req_ctx "tok-ios" "Hi" "there" "" "x1" Hcached)).
  - apply Forall_forall. intros cl Hin. rewrite <- Hdev.
    exact (Hrun bg_ctx (NewAPNSCredentialsFromEnv sample_env)
             (NewFCMCredentialsFromEnv sample_env) _ cl Hin).
Defined.

(** FCM rejects the send; no service-account file. *)
Lemma SendFirebasePush_failure_shapes_witness :
  fst (SendFirebasePush W_transport req_ctx "tok-android" "Hi" "there" "" "x1" s_boot) =
    Some (PushNotificationDeliveryFailed (foreign_error "registration-token-not-registered")) ∧
  fst (SendFirebasePush W_unconfigured req_ctx "tok-android" "Hi" "there" "" "x1" s_boot) =
    Some (foreign_error "cannot read credentials file").
Proof.
  split.
  - destruct (SendFirebasePush_failure_shapes W_transport req_ctx "tok-android" "Hi" "there"
                "" "x1" s_boot) as [_ H].
    exact (H _ _ eq_refl).
  - destruct (SendFirebasePush_failure_shapes W_unconfigured req_ctx "tok-android" "Hi"
                "there" "" "x1" s_boot) as [H _].
    exact (H _ _ eq_refl).
Defined.

(** Both vendors accept, so each send found its client and an accepting
    answer; APNs rejects, so no such answer exists. *)
Lemma sends_succeed_iff_witness :
  (∃ cl s2 response,
     getAPNSClient W_ok
       (log (EvCall (CallSendApplePush req_ctx "tok-ios" "Hi" "there" "" "x1")) s_boot)
       = (Ok cl, s2) ∧
     apns2_PushWithContext W_ok (history s2) cl req_ctx
       (apple_notification (apnsCreds (pc s_boot)) "tok-ios" "Hi" "there" "" "x1")
       = Ok response ∧
     apns2.StatusCode response = 200%Z) ∧
  (∃ cl s2 messageID,
     getFCMClient W_ok
       (log (EvCall (CallSendFirebasePush req_ctx "tok-android" "Hi" "there" "" "x1")) s_boot)
       = (Ok cl, s2) ∧
     messaging_Send W_ok (history s2) cl req_ctx
       (firebase_message "tok-android" "Hi" "there" "" "x1") = Ok messageID) ∧
  ¬ ∃ cl s2 response,
      getAPNSClient W_rejected
        (log (EvCall (CallSendApplePush req_ctx "tok-ios" "Hi" "there" "" "x1")) s_boot)
        = (Ok cl, s2) ∧
      apns2_PushWithContext W_rejected (history s2) cl req_ctx
        (apple_notification (apnsCreds (pc s_boot)) "tok-ios" "Hi" "there" "" "x1")
        = Ok response ∧
      apns2.StatusCode response = 200%Z.
Proof.
  destruct (sends_succeed_iff W_ok req_ctx "tok-ios" "Hi" "there" "" "x1" s_boot)
    as [Ha _].
  destruct (sends_succeed_iff W_ok req_ctx "tok-android" "Hi" "there" "" "x1" s_boot)
    as [_ Hf].
  destruct (sends_succeed_iff W_rejected req_ctx "tok-ios" "Hi" "there" "" "x1" s_boot)
    as [Hr _].
  split; [|split].
  - apply Ha. vm_compute. reflexivity.
  - apply Hf. vm_compute. reflexivity.
  - intros Hex. apply Hr in Hex. vm_compute in Hex. discriminate.
Defined.

(** A Firebase rejection reaches the caller of the handler as it is. *)
Lemma RpcSendNotification_result_shape_witness :
  fst (RpcSendNotification W_transport req_ctx logger0 db0 nk0 "android" s_boot) =
    ("", Some (PushNotificationDeliveryFailed
                 (foreign_error "registration-token-not-registered"))).
Proof.
  destruct (RpcSendNotification_result_shape W_transport req_ctx logger0 db0 nk0
              "android" s_boot) as [_ H].
  exact (H android_request _ eq_refl eq_refl).
Defined.

(** Two accounts on one device: the same request but for the user id. *)
Lemma RpcSendNotification_uses_only_send_fields_witness :
  RpcSendNotification W_two_users req_ctx logger0 db0 nk0 "android" s_boot =
  RpcSendNotification W_two_users req_ctx logger0 db0 nk0 "android-u3" s_boot.
Proof.
  exact (proj1 (RpcSendNotification_uses_only_send_fields W_two_users req_ctx
                  logger0 logger0 db0 db0 nk0 nk0 "android" "android-u3"
                  android_request android_request_other_user s_boot
                  eq_refl eq_refl eq_refl eq_refl eq_refl eq_refl eq_refl eq_refl)).
Defined.

(** The store is down: the driver's error comes back as it is; the store
    fails with [sql.ErrNoRows]: "user not found". *)
Lemma SendUserPush_query_failure_witness :
  fst (SendUserPush W_store req_ctx logger0 db0 "u-down" "Hi" "there" "" "x1" s_boot) =
    Some (foreign_error "driver: bad connection") ∧
  fst (SendUserPush W_unconfigured req_ctx logger0 db0 "u1" "Hi" "there" "" "x1" s_boot) =
    Some (errors_New "user not found").
Proof.
  split.
  - exact (proj1 (SendUserPush_query_failure W_store req_ctx logger0 db0 "u-down"
                    "Hi" "there" "" "x1" (foreign_error "driver: bad connection")
                    s_boot eq_refl)).
  - exact (proj1 (SendUserPush_query_failure W_unconfigured req_ctx logger0 db0 "u1"
                    "Hi" "there" "" "x1" sql_ErrNoRows s_boot eq_refl)).
Defined.

(** The second of three rows fails to scan: only the plan of the first row
    is run, and the result is decided by that fan-out and the scan error. *)
Lemma SendUserPush_scan_error_witness :
  let rows := map Ok [android_only_row] ++
              Fail (foreign_error "sql: Scan error on column index 1") ::
              [Ok both_tokens_row] in
  let plan := fanout_plan req_ctx "Hi" "there" "" "x1" [android_only_row] in
  let out := SendUserPush W_store req_ctx logger0 db0 "u-bad-row" "Hi" "there" "" "x1" s_boot in
  ∃ made r s1,
    fanout W_store (log (EvQueryContext db0 req_ctx query "u-bad-row" (Ok rows)) s_boot)
      plan r s1 made ∧
    snd out = log EvRowsClose s1 ∧
    calls_of (history (snd out)) = calls_of (history s_boot) ++ made ∧
    made `prefix_of` plan ∧
    fst out = match r with
              | Some e => Some e
              | None => Some (foreign_error "sql: Scan error on column index 1")
              end.
Proof.
  exact (SendUserPush_scan_error W_store req_ctx logger0 db0 "u-bad-row"
           "Hi" "there" "" "x1" [android_only_row]
           (foreign_error "sql: Scan error on column index 1") [Ok both_tokens_row]
           s_boot eq_refl).
Defined.

(** A user with two rows, one with NULL tokens and one with empty tokens. *)
Lemma SendUserPush_rows_without_tokens_witness :
  SendUserPush W_store req_ctx logger0 db0 "u-no-tokens" "Hi" "there" "" "x1" s_boot =
  (None,
   log EvRowsClose
     (log (EvQueryContext db0 req_ctx query "u-no-tokens"
             (Ok (map Ok [null_tokens_row; empty_tokens_row]))) s_boot)).
Proof.
  apply (SendUserPush_rows_without_tokens W_store req_ctx logger0 db0 "u-no-tokens"
           "Hi" "there" "" "x1" [null_tokens_row; empty_tokens_row] s_boot eq_refl).
  constructor; [split; left; reflexivity|].
  constructor; [split; right; reflexivity|].
  constructor.
Defined.

(** A user with both tokens on one row, both vendors accepting: FCM receives
    the message for the Android token and APNs the notification for the iOS
    token. *)
Lemma SendUserPush_delivers_witness :
  let out := SendUserPush W_ok req_ctx logger0 db0 "u-both" "Hi" "there" "" "x1" s_boot in
  fcm_submitted (history (snd out)) = [firebase_message "tok-a2" "Hi" "there" "" "x1"] ∧
  apns_submitted (history (snd out)) =
    [apple_notification (apnsCreds (pc s_boot)) "tok-i2" "Hi" "there" "" "x1"].
Proof.
  destruct (SendUserPush_delivers W_ok req_ctx logger0 db0 "u-both" "Hi" "there" "" "x1"
              [both_tokens_row] s_boot eq_refl)
    as (fm & an & F & A & _ & _ & Hall).
  destruct (Hall eq_refl) as [-> ->].
  split; [exact F|exact A].
Defined.

(** The example of the specification reaches APNs with its own fields. *)
Lemma RpcSendNotification_delivers_witness :
  let out := RpcSendNotification W_ok req_ctx logger0 db0 nk0 example_payload s_boot in
  apns_submitted (history (snd out)) =
    apns_submitted (history s_boot) ++
    [apple_notification (apnsCreds (pc s_boot)) "tok-ios" "Hi" "there" "" "x1"] ∧
  fcm_submitted (history (snd out)) = fcm_submitted (history s_boot).
Proof.
  exact (RpcSendNotification_delivers W_ok req_ctx logger0 db0 nk0 example_payload
           example_request s_boot eq_refl eq_refl).
Defined.

(** After two Apple sends and a Firebase send on the sample client, the
    cached APNs handle points at the development host chosen by the sample
    configuration. *)
Lemma cached_handles_built_from_credentials_witness :
  ∃ cl,
    apnsClient (pc (run W_ok
       [OpSendApplePush req_ctx "tok-ios" "Hi" "there" "" "x1";
        OpSendFirebasePush req_ctx "tok-android" "Hi" "there" "" "x1"] s_boot)) = Some cl ∧
    token.KeyID (apns2.Token cl) = "" ∧
    apns2.Host cl = apns2.HostDevelopment.
Proof.
  destruct (cached_handles_built_from_credentials W_ok bg_ctx
              (NewAPNSCredentialsFromEnv sample_env) (NewFCMCredentialsFromEnv sample_env)
              [OpSendApplePush req_ctx "tok-ios" "Hi" "there" "" "x1";
               OpSendFirebasePush req_ctx "tok-android" "Hi" "there" "" "x1"])
    as [Ha _].
  destruct (apnsClient (pc (run W_ok _ s_boot))) as [cl|] eqn:Hcl;
    [|vm_compute in Hcl; discriminate].
  exists cl. destruct (Ha cl Hcl) as (Hk & _ & _ & Hh).
  split; [reflexivity|]. split.
  - rewrite Hk. vm_compute. reflexivity.
  - rewrite Hh. vm_compute. reflexivity.
Defined.

(** The sample configuration names the development environment; the empty
    configuration names none. *)
Lemma first_sends_use_configuration_witness :
  chosen_host (apnsCreds (pc (boot (NewPushClientFromEnv bg_ctx sample_env)))) =
    apns2.HostDevelopment ∧
  chosen_host (apnsCreds (pc (boot (NewPushClientFromEnv bg_ctx ∅)))) ≠
    apns2.HostDevelopment.
Proof.
  destruct (first_sends_use_configuration W_ok bg_ctx sample_env req_ctx
              "tok-ios" "Hi" "there" "" "x1") as (_ & _ & _ & _ & Hs).
  destruct (first_sends_use_configuration W_ok bg_ctx ∅ req_ctx
              "tok-ios" "Hi" "there" "" "x1") as (_ & _ & _ & _ & He).
  split.
  - apply Hs. vm_compute. reflexivity.
  - intros Hdev. apply He in Hdev. vm_compute in Hdev. discriminate.
Defined.
